(** * snscrape command-line driver: a shallow embedding of [snscrape/cli.py]

    - The model: the Python values the driver handles (exceptions, frame
      records, datetimes); the interpreter services it calls
      ([datetime.strptime], [int], [datetime.fromtimestamp], [argparse],
      [tempfile]) as type classes; [_dump_locals_on_exception],
      [parse_datetime_arg], [parse_args], [setup_logging] and [main] as
      executable functions over an explicit world (standard output, log
      records, temporary files).
    - Reference instances of the services, written after CPython, on which
      the model runs.
    - The properties of the driver, proved for every instance of the
      services, with runs on the reference instances. *)

From Stdlib Require Import ZArith Ascii String List Bool Lia.
From stdpp Require Import base tactics option list strings gmap pretty stringmap.
From Equations Require Import Equations.

Local Open Scope string_scope.
Local Open Scope Z_scope.
Local Open Scope list_scope.
#[local] Set Warnings "-register-all".

(* ===================================================================== *)
(** * The model                                                           *)
(* ===================================================================== *)

(** ** Strings *)

(** The double quote and the line feed, which the messages of the source
    contain. *)
Definition dquote : string := String (ascii_of_nat 34) EmptyString.
Definition newline : string := String (ascii_of_nat 10) EmptyString.

(** [str.startswith]. *)
Definition startswith (s p : string) : bool := String.prefix p s.

Definition code (c : ascii) : Z := Z.of_nat (nat_of_ascii c).

Definition backslash : ascii := ascii_of_nat 92.
Definition squote : ascii := ascii_of_nat 39.
Definition dquote_char : ascii := ascii_of_nat 34.

Fixpoint contains (c : ascii) (s : string) : bool :=
  match s with
  | EmptyString => false
  | String x r => (code x =? code c) || contains c r
  end.

Definition hex_digit (n : Z) : ascii :=
  if n <? 10 then ascii_of_nat (Z.to_nat (48 + n)) else ascii_of_nat (Z.to_nat (87 + n)).

(** One character of [repr(s)] inside quotes [q]. *)
Definition repr_char (q c : ascii) : string :=
  let n := code c in
  if (n =? code q) || (n =? 92) then String backslash (String c EmptyString)
  else if n =? 9 then String backslash "t"
  else if n =? 10 then String backslash "n"
  else if n =? 13 then String backslash "r"
  else if (n <? 32) || (n =? 127)
  then String backslash (String "x" (String (hex_digit (n / 16)) (String (hex_digit (n mod 16)) EmptyString)))
  else String c EmptyString.

Fixpoint repr_body (q : ascii) (s : string) : string :=
  match s with
  | EmptyString => EmptyString
  | String c r => repr_char q c +:+ repr_body q r
  end.

(** [repr(s)] of a [str] of ASCII characters: single quotes, or double
    quotes when [s] holds a single quote and no double quote. *)
Definition repr_str (s : string) : string :=
  let q := if contains squote s && negb (contains dquote_char s)
           then dquote_char else squote in
  String q (repr_body q s) +:+ String q EmptyString.

(** ** Python objects as the driver sees them *)

(** An object is observed through [repr(obj)] and, when it has one, through
    [repr(obj.__dict__)] ([hasattr(obj, '__dict__')] is [true] exactly when
    [obj_dict] is [Some _]). *)
Record PyObj := mkObj {
  obj_repr : string;
  obj_dict : option string
}.

(** The local variables of a frame, in the order of the frame's dict. *)
Definition Locals := list (string * PyObj).

(** A record of [inspect.trace()]: [frameRecord.filename], [.lineno],
    [.function], the frame's locals, and the [__name__] of
    [inspect.getmodule(frameRecord[0])], which is [None] when the module
    of the frame cannot be determined. *)
Record FrameRecord := mkFrame {
  fr_filename : string;
  fr_lineno : Z;
  fr_function : string;
  fr_module : option string;
  fr_locals : Locals
}.

(** ** Exceptions *)

Inductive ExcClass :=
| ValueError
| OverflowError
| OSError
| TypeError
| AttributeError
| KeyError
| IndexError
| RuntimeError
| ArgumentTypeError
| ArgumentError
| KeyboardInterrupt
| SystemExit
| GeneratorExit
| OtherException (qualname : string).

(** [isinstance(e, Exception)]: every class but the three that derive from
    [BaseException] directly. *)
Definition is_Exception (c : ExcClass) : bool :=
  match c with
  | KeyboardInterrupt | SystemExit | GeneratorExit => false
  | _ => true
  end.

(** [isinstance(e, ValueError)]. *)
Definition is_ValueError (c : ExcClass) : bool :=
  match c with
  | ValueError => true
  | _ => false
  end.

(** An exception object: its class, its message, the frame records of its
    traceback below the frame of [main] (outermost first, the raising frame
    last), and the exception that was being handled when it was raised
    ([__context__]). *)
Inductive Exc :=
| mkExc (cls : ExcClass) (msg : string) (tb : list FrameRecord) (context : option Exc).

Definition exc_class (e : Exc) : ExcClass := let 'mkExc c _ _ _ := e in c.
Definition exc_msg (e : Exc) : string := let 'mkExc _ m _ _ := e in m.
Definition exc_tb (e : Exc) : list FrameRecord := let 'mkExc _ _ t _ := e in t.
Definition exc_context (e : Exc) : option Exc := let 'mkExc _ _ _ c := e in c.

(** The length of the [__context__] chain. *)
Fixpoint exc_depth (e : Exc) : nat :=
  match e with
  | mkExc _ _ _ None => O
  | mkExc _ _ _ (Some c) => S (exc_depth c)
  end.

(** The [__context__] chain of an exception: the exception that was being
    handled when it was raised, the one that was being handled when that
    one was raised, and so on. *)
Fixpoint context_chain (e : Exc) : list Exc :=
  match e with
  | mkExc _ _ _ None => []
  | mkExc _ _ _ (Some c) => c :: context_chain c
  end.

(** A computation that returns or raises. *)
Inductive Result (A : Type) :=
| Ok (a : A)
| Raise (e : Exc).
Arguments Ok {A} a.
Arguments Raise {A} e.

Definition bind {A B} (r : Result A) (k : A -> Result B) : Result B :=
  match r with
  | Ok a => k a
  | Raise e => Raise e
  end.

(** ** [datetime] *)

(** [datetime.timezone]: a fixed offset from UTC, in microseconds. *)
Record timezone := mkTz { utcoffset : Z }.

Definition utc : timezone := mkTz 0.

Record datetime := mkDatetime {
  year : Z;
  month : Z;
  day : Z;
  hour : Z;
  minute : Z;
  second : Z;
  microsecond : Z;
  tzinfo : option timezone
}.

(** [d.replace(tzinfo = tz)]. *)
Definition replace_tzinfo (d : datetime) (tz : option timezone) : datetime :=
  mkDatetime (year d) (month d) (day d) (hour d) (minute d) (second d)
             (microsecond d) tz.

Definition is_leap (y : Z) : bool :=
  (y mod 4 =? 0) && (negb (y mod 100 =? 0) || (y mod 400 =? 0)).

Definition days_in_month (y m : Z) : Z :=
  if m =? 2 then (if is_leap y then 29 else 28)
  else if (m =? 4) || (m =? 6) || (m =? 9) || (m =? 11) then 30
  else 31.

(** [datetime._days_before_year], [_days_before_month], [_ymd2ord]. *)
Definition days_before_year (y : Z) : Z :=
  let y' := y - 1 in
  y' * 365 + y' / 4 - y' / 100 + y' / 400.

Fixpoint days_before_month_nat (y : Z) (m : nat) : Z :=
  match m with
  | O => 0
  | S m' => days_before_month_nat y m' + days_in_month y (Z.of_nat m)
  end.

Definition days_before_month (y m : Z) : Z :=
  days_before_month_nat y (Z.to_nat (m - 1)).

Definition ymd2ord (y m d : Z) : Z :=
  days_before_year y + days_before_month y m + d.

(** Ordinal of 1970-01-01. *)
Definition epoch_ordinal : Z := 719163.

(** The wall-clock reading of [d] in microseconds since the epoch, the
    offset not applied. *)
Definition naive_micros (d : datetime) : Z :=
  (((ymd2ord (year d) (month d) (day d) - epoch_ordinal) * 86400
    + hour d * 3600 + minute d * 60 + second d) * 1000000)
  + microsecond d.

(** The instant of an aware datetime, in microseconds since the epoch. *)
Definition utc_micros (d : datetime) (tz : timezone) : Z :=
  naive_micros d - utcoffset tz.

Definition type_error (m : string) : Exc := mkExc TypeError m [] None.

(** [a < b] on datetimes: two naive values compare by their fields, two
    aware values by their instants, and a naive value against an aware one
    raises [TypeError]. *)
Definition datetime_lt (a b : datetime) : Result bool :=
  match tzinfo a, tzinfo b with
  | None, None => Ok (naive_micros a <? naive_micros b)
  | Some ta, Some tb => Ok (utc_micros a ta <? utc_micros b tb)
  | _, _ => Raise (type_error "can't compare offset-naive and offset-aware datetimes")
  end.

Definition zero_pad (width : nat) (n : Z) : string :=
  let s := pretty n in
  String.concat "" (replicate (width - String.length s)%nat "0") +:+ s.

Definition str_fraction (us : Z) : string :=
  if us =? 0 then "" else "." +:+ zero_pad 6 us.

(** [str(tz.utcoffset)] as [isoformat] prints it: [+HH:MM], with [:SS] and
    [.ffffff] when they are not zero. *)
Definition str_offset (tz : timezone) : string :=
  let off := utcoffset tz in
  let a := Z.abs off in
  let secs := a / 1000000 in
  let us := a mod 1000000 in
  let ss := secs mod 60 in
  (if off <? 0 then "-" else "+")
  +:+ zero_pad 2 (secs / 3600) +:+ ":" +:+ zero_pad 2 (secs / 60 mod 60)
  +:+ (if (ss =? 0) && (us =? 0) then ""
       else ":" +:+ zero_pad 2 ss +:+ str_fraction us).

(** [str(d)], that is [d.isoformat(sep = ' ')]. *)
Definition str_datetime (d : datetime) : string :=
  zero_pad 4 (year d) +:+ "-" +:+ zero_pad 2 (month d) +:+ "-" +:+ zero_pad 2 (day d)
  +:+ " " +:+ zero_pad 2 (hour d) +:+ ":" +:+ zero_pad 2 (minute d)
  +:+ ":" +:+ zero_pad 2 (second d) +:+ str_fraction (microsecond d)
  +:+ match tzinfo d with
      | None => ""
      | Some tz => str_offset tz
      end.

(** ** The interpreter's date and number services

    [parse_datetime_arg] calls three functions of the standard library.
    [strptime] and [int] either return or raise [ValueError] ([None]);
    [fromtimestamp], called with [datetime.timezone.utc], returns or raises
    an exception of its own. *)
Class PyDatetime := {
  strptime : string -> string -> option datetime;
  py_int : string -> option Z;
  fromtimestamp_utc : Z -> Result datetime
}.

(** ** [parse_datetime_arg] (lines 38-55) *)

(** The tuple the [for] statement of line 39 walks. *)
Definition formats : list string :=
  ["%Y-%m-%d %H:%M:%S %z"; "%Y-%m-%d %H:%M:%S"; "%Y-%m-%d %z"; "%Y-%m-%d"].

(** Lines 45-47, the [else] branch of the [try]. *)
Definition assume_utc (d : datetime) : datetime :=
  match tzinfo d with
  | None => replace_tzinfo d (Some utc)
  | Some _ => d
  end.

(** Lines 39-47: [None] when the loop ends without a [return]. *)
Fixpoint try_formats `{PyDatetime} (arg : string) (fs : list string) : option datetime :=
  match fs with
  | [] => None
  | format :: fs' =>
      match strptime arg format with
      | None => try_formats arg fs'
      | Some d => Some (assume_utc d)
      end
  end.

(** Line 55. *)
Definition cannot_parse (arg : string) : Exc :=
  mkExc ArgumentTypeError
        ("Cannot parse " +:+ repr_str arg +:+ " into a datetime object") [] None.

(** Lines 48-55: [except ValueError] covers both [int(arg)] and
    [fromtimestamp]; any other exception leaves the function. *)
Definition try_unix_timestamp `{PyDatetime} (arg : string) : Result datetime :=
  match py_int arg with
  | None => Raise (cannot_parse arg)
  | Some n =>
      match fromtimestamp_utc n with
      | Ok d => Ok d
      | Raise e =>
          if is_ValueError (exc_class e) then Raise (cannot_parse arg) else Raise e
      end
  end.

Definition parse_datetime_arg `{PyDatetime} (arg : string) : Result datetime :=
  match try_formats arg formats with
  | Some d => Ok d
  | None => try_unix_timestamp arg
  end.

(** ** Scraper classes, items and the parsed command line *)

(** A class below [snscrape.base.Scraper]: its qualified name, the value of
    its attribute [name] (its own or the one it inherits; [None] marks an
    abstract scraper) and [cls.__subclasses__()]. A class with several bases
    stands in the list of each of them. *)
Inductive Cls :=
| Class (qualname : string) (name : option string) (subclasses : list Cls).

Definition cls_qualname (c : Cls) : string := let 'Class q _ _ := c in q.
Definition cls_name (c : Cls) : option string := let 'Class _ n _ := c in n.
Definition cls_subclasses (c : Cls) : list Cls := let 'Class _ _ l := c in l.

(** The number of classes in a hierarchy, a class counted once for each
    path that leads to it. *)
Fixpoint cls_size (c : Cls) : nat :=
  match c with
  | Class _ _ subs => S ((fix sum (l : list Cls) : nat :=
                            match l with
                            | [] => O
                            | x :: l' => (cls_size x + sum l')%nat
                            end) subs)
  end.

Fixpoint forest_size (l : list Cls) : nat :=
  match l with
  | [] => O
  | c :: l' => (cls_size c + forest_size l')%nat
  end.

(** What a scraper yields: [item.date]; [str(item)], the text
    [print(item)] writes, or what the [__str__] of the item raises; and,
    for each template, what [template.format] returns or raises when it is
    given the fields of [item._asdict()] as keyword arguments. *)
Record Item := mkItem {
  date : datetime;
  item_str : Result string;
  item_format : string -> Result string
}.

(** One [next()] on the generator [scraper.get_items()]. *)
Inductive Pull :=
| Yield (item : Item)
| StopIteration
| Throw (e : Exc).

(** A constructed scraper, seen through its generator: what the [k]-th
    [next()] does, counted from 0. *)
Definition Scraper := nat -> Pull.

(** The [argparse.Namespace] of lines 60-73. [scraper] is [None] when the
    command line names no subcommand, and then [cls] is not set.
    [scraper_args] are the words after the subcommand, which the scraper's
    own subparser reads. *)
Record Namespace := mkNamespace {
  verbosity : Z;
  retries : Z;
  maxResults : option Z;
  format : option string;
  since : option datetime;
  scraper : option string;
  cls : option Cls;
  scraper_args : list string
}.

(** The parser built by lines 59-74: the converter of [--since] and the
    map from subcommand name to the class its subparser has as default
    ([subparser.set_defaults(cls = cls)]). *)
Record ArgumentParser := mkParser {
  since_type : string -> Result datetime;
  name_parser_map : gmap string Cls
}.

(** ** The world the driver acts on *)

Definition DEBUG : Z := 10.
Definition INFO : Z := 20.
Definition WARNING : Z := 30.
Definition CRITICAL : Z := 50.

Record World := mkWorld {
  stdout : list string;             (* the lines printed *)
  log_records : list (Z * string);  (* the records the handler emitted *)
  root_level : Z;                   (* the level of the root logger *)
  tmp_files : gmap string string;   (* the temporary directory *)
  constructed : list Cls            (* the classes whose from_args ran *)
}.

Definition world0 : World := mkWorld [] [] WARNING ∅ [].

(** [print(s)]; the write to [sys.stdout] is taken to succeed. *)
Definition print (s : string) (w : World) : World :=
  mkWorld (stdout w ++ [s]) (log_records w) (root_level w) (tmp_files w) (constructed w).

(** [logger.log(level, msg)]: the module's logger has no level of its own,
    so the record is emitted when the root logger's level allows it. *)
Definition logger_log (level : Z) (msg : string) (w : World) : World :=
  if root_level w <=? level
  then mkWorld (stdout w) (log_records w ++ [(level, msg)]) (root_level w)
               (tmp_files w) (constructed w)
  else w.

Definition logger_info : string -> World -> World := logger_log INFO.
Definition logger_fatal : string -> World -> World := logger_log CRITICAL.

(** Closing a file opened for writing under a name the directory did not
    hold. *)
Definition write_file (name content : string) (w : World) : World :=
  mkWorld (stdout w) (log_records w) (root_level w)
          (<[name := content]> (tmp_files w)) (constructed w).

Definition note_constructed (c : Cls) (w : World) : World :=
  mkWorld (stdout w) (log_records w) (root_level w) (tmp_files w) (constructed w ++ [c]).

(** What [subparsers.add_parser(name, ...)] does with a name that is
    registered already. Up to Python 3.10 argparse stores the new subparser
    under the name by plain dict assignment, so that it replaces the one
    before; from Python 3.11 on [add_parser] first tests
    [name in self._name_parser_map] and raises [ArgumentError]. *)
Inductive RepeatedName :=
| Replaces
| Rejects.

(** ** What the process finds around it

    - [repeated_name]: the argparse the process runs with;
    - [setup_parser c]: [c.setup_parser(subparser)], code of the scraper
      class, which returns [None] or raises;
    - [parser_parse_args p argv]: what [parser.parse_args()] returns or
      raises for the command line [argv];
    - [from_args c args]: [c.from_args(args)], the scraper whose items the
      loop pulls;
    - [mkstemp_name prefix dir]: the name [tempfile.NamedTemporaryFile]
      creates its file under, which the directory does not hold yet and
      which starts with the prefix. *)
Class Environment := {
  repeated_name : RepeatedName;
  setup_parser : Cls -> Result unit;
  parser_parse_args : ArgumentParser -> list string -> Result Namespace;
  from_args : Cls -> Namespace -> Result Scraper;
  mkstemp_name : string -> gmap string string -> string;
  mkstemp_fresh : forall prefix dir, dir !! mkstemp_name prefix dir = None;
  mkstemp_prefix : forall prefix dir, startswith (mkstemp_name prefix dir) prefix = true
}.

(** ** [parse_args] (lines 58-82) *)

(** The [ArgumentError] of [add_parser]; the action it names is the one
    of line 67, whose [dest] is ['scraper']. *)
Definition conflicting_subparser (name : string) : Exc :=
  mkExc ArgumentError ("argument scraper: conflicting subparser: " +:+ name) [] None.

(** Line 71, [subparsers.add_parser(cls.name, ...)], on the map from
    subcommand name to the class that line 73 makes the default [cls] of
    the subparser. *)
Definition add_parser (repeated : RepeatedName) (name : string) (c : Cls)
    (m : gmap string Cls) : Result (gmap string Cls) :=
  match repeated, m !! name with
  | Rejects, Some _ => Raise (conflicting_subparser name)
  | _, _ => Ok (<[name := c]> m)
  end.

(** Lines 70-73 for one class: nothing for a class whose [name] is [None];
    otherwise [add_parser], which may raise, then [cls.setup_parser], which
    may raise, then [set_defaults]. Reading the options [setup_parser]
    gives the subparser is left to [parser_parse_args]. *)
Definition register_class (repeated : RepeatedName) (setup : Cls -> Result unit)
    (c : Cls) (m : gmap string Cls) : Result (gmap string Cls) :=
  match cls_name c with
  | Some n =>
      bind (add_parser repeated n c m) (fun m' =>
      bind (setup c) (fun _ => Ok m'))
  | None => Ok m
  end.

(** Lines 68-74. The [for] statement reads [classes[i]] for [i = 0, 1, ...]
    while [i < len(classes)], and line 74 appends to the list it walks:
    [seen] is [classes[:i]], [pending] is [classes[i:]]. The loop ends with
    the final list and the map of subparsers, or with the exception that
    line 71 or line 72 raised. *)
Equations? register_loop (repeated : RepeatedName) (setup : Cls -> Result unit)
    (seen pending : list Cls) (m : gmap string Cls)
    : Result (list Cls * gmap string Cls) by wf (forest_size pending) lt :=
  register_loop repeated setup seen [] m := Ok (seen, m);
  register_loop repeated setup seen (c :: rest) m :=
    match register_class repeated setup c m with
    | Raise e => Raise e
    | Ok m' => register_loop repeated setup (seen ++ [c]) (rest ++ cls_subclasses c) m'
    end.
Proof.
  destruct c as [q n subs]; simpl.
  assert (H : forall a b, forest_size (a ++ b) = (forest_size a + forest_size b)%nat).
  { induction a as [|x a IH]; intros b; simpl; [reflexivity|rewrite IH; lia]. }
  rewrite H.
  assert (H2 : forall l, (fix sum (l : list Cls) : nat :=
                  match l with [] => O | x :: l' => (cls_size x + sum l')%nat end) l
               = forest_size l).
  { induction l as [|x l IH]; simpl; [reflexivity|rewrite IH; reflexivity]. }
  pose proof (H2 subs) as E. simpl in *. lia.
Qed.

(** Line 80. *)
Definition no_scraper : Exc :=
  mkExc RuntimeError "Error: no scraper specified" [] None.

(** [not args.scraper]: [None] and the empty string are falsy. *)
Definition falsy_str (s : option string) : bool :=
  match s with
  | None => true
  | Some EmptyString => true
  | Some _ => false
  end.

(** Lines 59-74: the parser line 76 calls, or the exception that ended its
    construction. [root_subclasses] is
    [snscrape.base.Scraper.__subclasses__()]. *)
Definition build_parser `{PyDatetime} `{Environment} (root_subclasses : list Cls)
    : Result ArgumentParser :=
  bind (register_loop repeated_name setup_parser [] root_subclasses ∅) (fun classes_map =>
  Ok (mkParser parse_datetime_arg (snd classes_map))).

Definition parse_args `{PyDatetime} `{Environment}
    (root_subclasses : list Cls) (argv : list string) : Result Namespace :=
  bind (build_parser root_subclasses) (fun parser =>
  bind (parser_parse_args parser argv) (fun args =>
  if falsy_str (scraper args) then Raise no_scraper else Ok args)).

(** ** [setup_logging] (lines 85-101) *)

(** The level is set when [verbosity > 0]; the handler added at line 101
    is the one [log_records] collects from. *)
Definition setup_logging (v : Z) (w : World) : World :=
  if 0 <? v
  then mkWorld (stdout w) (log_records w) (if v =? 1 then INFO else DEBUG)
               (tmp_files w) (constructed w)
  else w.

(** ** [_dump_locals_on_exception] (lines 14-35) *)

Definition cli_file : string := "snscrape/cli.py".

(** The first two records of [inspect.trace()] in the handler: the frame
    of the context manager itself, stopped at its [yield], and the frame of
    [main] at the line of the [with] body that raised. Line 22 starts at
    [trace[2:]], so their locals are never read and are not represented. *)
Definition wrapper_frame : FrameRecord :=
  mkFrame cli_file 17 "_dump_locals_on_exception" (Some "snscrape.cli") [].

Definition main_frame (lineno : Z) : FrameRecord :=
  mkFrame cli_file lineno "main" (Some "snscrape.cli") [].

(** [inspect.trace()] while [e], raised at line [lineno] of [main], is
    handled at line 18. *)
Definition inspect_trace (lineno : Z) (e : Exc) : list FrameRecord :=
  wrapper_frame :: main_frame lineno :: exc_tb e.

(** Line 24, the test that keeps a frame: the name of its module starts
    with ['snscrape.'] or is ['snscrape']. *)
Definition owned (module_name : string) : bool :=
  startswith module_name "snscrape." || String.eqb module_name "snscrape".

(** [module.__name__] when [inspect.getmodule] returned [None], raised
    while [handling] is being handled. *)
Definition none_has_no_name (handling : Exc) : Exc :=
  mkExc AttributeError "'NoneType' object has no attribute '__name__'" [] (Some handling).

Fixpoint lookup_local (k : string) (l : Locals) : option PyObj :=
  match l with
  | [] => None
  | (k', v) :: l' => if String.eqb k k' then Some v else lookup_local k l'
  end.

(** [repr(locals_)]. *)
Definition repr_locals (l : Locals) : string :=
  "{" +:+ String.concat ", " (map (fun kv => repr_str (fst kv) +:+ ": " +:+ obj_repr (snd kv)) l)
  +:+ "}".

(** Lines 30-32. *)
Definition self_dict (l : Locals) : string :=
  match lookup_local "self" l with
  | Some self =>
      match obj_dict self with
      | Some d => "Object dict:" +:+ newline +:+ d
      | None => ""
      end
  | None => ""
  end.

(** Line 27. *)
Definition block_header (fr : FrameRecord) : string :=
  "Locals from file " +:+ dquote +:+ fr_filename fr +:+ dquote +:+ ", line "
  +:+ pretty (fr_lineno fr) +:+ ", in " +:+ fr_function fr +:+ ":" +:+ newline.

(** Lines 29-33. *)
Definition block_footer (fr : FrameRecord) : string :=
  newline +:+ self_dict (fr_locals fr) +:+ newline +:+ newline.

(** Lines 27-33: what one kept frame adds to the file. *)
Definition frame_block (fr : FrameRecord) : string :=
  block_header fr +:+ repr_locals (fr_locals fr) +:+ block_footer fr.

(** Lines 22-33: the loop over [trace[2:]], with what has been written so
    far. The text written is returned also when the loop raises: the file
    is closed, and kept, on every way out of the [with] of line 21. *)
Fixpoint dump_frames (handling : Exc) (frames : list FrameRecord) (written : string)
    : Result unit * string :=
  match frames with
  | [] => (Ok tt, written)
  | frameRecord :: rest =>
      match fr_module frameRecord with
      | None => (Raise (none_has_no_name handling), written)
      | Some module_name =>
          if owned module_name
          then dump_frames handling rest (written +:+ frame_block frameRecord)
          else dump_frames handling rest written
      end
  end.

(** Lines 19-34. Creating the file, writing to it and [repr] of the locals
    are taken to succeed; an exception of one of them would leave the
    handler in place of [e], as the one of line 24 does. *)
Definition dump_locals `{Environment} (trace : list FrameRecord) (e : Exc) (w : World)
    : Result unit * World :=
  if 3 <=? Z.of_nat (length trace) then
    let fp_name := mkstemp_name "snscrape_locals_" (tmp_files w) in
    match dump_frames e (drop 2 trace) "" with
    | (Ok _, content) =>
        (Ok tt, logger_fatal ("Local variables logged to " +:+ fp_name)
                             (write_file fp_name content w))
    | (Raise e', content) => (Raise e', write_file fp_name content w)
    end
  else (Ok tt, w).

(** How the body of a [with] statement ends: it runs to its end, or an
    exception leaves it from line [lineno] of [main]. *)
Inductive Outcome (A : Type) :=
| Returned (a : A)
| Raised (lineno : Z) (e : Exc).
Arguments Returned {A} a.
Arguments Raised {A} lineno e.

(** The context manager around a body. [except Exception] lets
    [KeyboardInterrupt], [SystemExit] and [GeneratorExit] pass; the [raise]
    of line 35 raises the exception that was caught. *)
Definition _dump_locals_on_exception `{Environment} {A}
    (body : Outcome A * World) : Result A * World :=
  match body with
  | (Returned a, w) => (Ok a, w)
  | (Raised lineno e, w) =>
      if is_Exception (exc_class e) then
        match dump_locals (inspect_trace lineno e) e w with
        | (Ok _, w') => (Raise e, w')
        | (Raise e', w') => (Raise e', w')
        end
      else (Raise e, w)
  end.

(** ** [main] (lines 104-123) *)

(** The three ways the [for] statement ends without an exception: the
    [break] of line 114, the [break] of line 121, and the [else] clause of
    line 122. *)
Inductive Exit :=
| ReachedOlder
| ReachedMax
| Exhausted.

Inductive Step :=
| Next
| Break (why : Exit).

(** Line 112: [args.since is not None and item.date < args.since]. *)
Definition older_than_since (args : Namespace) (item : Item) : Result bool :=
  match since args with
  | None => Ok false
  | Some s => datetime_lt (date item) s
  end.

(** Lines 115-118: the text [print] writes, or the exception raised while
    it is made. *)
Definition render (args : Namespace) (item : Item) : Result string :=
  match format args with
  | Some template => item_format item template
  | None => item_str item
  end.

(** The line of [main] that renders: 116 with a template, 118 without. *)
Definition render_lineno (args : Namespace) : Z :=
  match format args with
  | Some _ => 116
  | None => 118
  end.

(** Line 119: [args.maxResults and i >= args.maxResults]; [None] and [0]
    are falsy. *)
Definition reached_max (args : Namespace) (i : Z) : bool :=
  match maxResults args with
  | None => false
  | Some n => negb (n =? 0) && (n <=? i)
  end.

Definition str_since (args : Namespace) : string :=
  match since args with
  | Some s => str_datetime s
  | None => "None"
  end.

(** Lines 112-121 for one item, [i] its number counted from 1. *)
Definition loop_body (args : Namespace) (i : Z) (item : Item) (w : World)
    : Outcome Step * World :=
  match older_than_since args item with
  | Raise e => (Raised 112 e, w)
  | Ok true =>
      (Returned (Break ReachedOlder),
       logger_info ("Exiting due to reaching older results than " +:+ str_since args) w)
  | Ok false =>
      match render args item with
      | Raise e => (Raised (render_lineno args) e, w)
      | Ok text =>
          let w' := print text w in
          if reached_max args i
          then (Returned (Break ReachedMax),
                logger_info ("Exiting after " +:+ pretty i +:+ " results") w')
          else (Returned Next, w')
      end
  end.

(** Lines 111-123. [k] items have been pulled; [fuel] bounds the number of
    [next()] calls still made, and [None] is a loop that needs more. *)
Fixpoint for_loop (fuel : nat) (args : Namespace) (items : Scraper) (k : nat) (w : World)
    : option (Outcome Exit * World) :=
  match fuel with
  | O => None
  | S fuel' =>
      match items k with
      | StopIteration =>
          Some (Returned Exhausted,
                logger_info ("Done, found " +:+ pretty (Z.of_nat k) +:+ " results") w)
      | Throw e => Some (Raised 111 e, w)
      | Yield item =>
          match loop_body args (Z.of_nat k + 1) item w with
          | (Returned Next, w') => for_loop fuel' args items (S k) w'
          | (Returned (Break why), w') => Some (Returned why, w')
          | (Raised lineno e, w') => Some (Raised lineno e, w')
          end
      end
  end.

(** Line 107: [args.cls.from_args(args)]. *)
Definition construct `{Environment} (args : Namespace) (w : World) : Result Scraper * World :=
  match cls args with
  | None =>
      (Raise (mkExc AttributeError "'Namespace' object has no attribute 'cls'" [] None), w)
  | Some c => (from_args c args, note_constructed c w)
  end.

Definition main `{PyDatetime} `{Environment}
    (fuel : nat) (root_subclasses : list Cls) (argv : list string) (w : World)
    : option (Result Exit * World) :=
  match parse_args root_subclasses argv with
  | Raise e => Some (Raise e, w)
  | Ok args =>
      let w1 := setup_logging (verbosity args) w in
      match construct args w1 with
      | (Raise e, w2) => Some (Raise e, w2)
      | (Ok scraper, w2) =>
          match for_loop fuel args scraper 0 w2 with
          | None => None
          | Some body => Some (_dump_locals_on_exception body)
          end
      end
  end.

(* ===================================================================== *)
(** * Reference instances                                                 *)
(* ===================================================================== *)

(** ** A reference instance of the date and number services

    Written after CPython 3.11 on 64-bit Linux, for strings of ASCII
    characters and for the seven directives the formats of the source use
    ([%Y %m %d %H %M %S %z]). [_strptime] turns a format into a regular
    expression and takes the first match in backtracking order; a parser
    here returns its matches in that order. *)
Module CPython.

Definition digit_in (lo hi : Z) (c : ascii) : option Z :=
  let n := code c - 48 in
  if (lo <=? n) && (n <=? hi) then Some n else None.

(** [\s] of a [str] pattern, on ASCII. *)
Definition re_space (c : ascii) : bool :=
  let n := code c in
  (n =? 32) || ((9 <=? n) && (n <=? 13)) || ((28 <=? n) && (n <=? 31)).

(** The whitespace [int] strips. *)
Definition c_space (c : ascii) : bool :=
  let n := code c in
  (n =? 32) || ((9 <=? n) && (n <=? 13)).

Definition lower (c : ascii) : Z :=
  let n := code c in
  if (65 <=? n) && (n <=? 90) then n + 32 else n.

Definition parser (A : Type) : Type := string -> list (A * string).

Definition p_ret {A} (a : A) : parser A := fun s => [(a, s)].

Definition p_bind {A B} (p : parser A) (k : A -> parser B) : parser B :=
  fun s => flat_map (fun ar => k (fst ar) (snd ar)) (p s).

Definition p_alt {A} (p q : parser A) : parser A := fun s => p s ++ q s.

Definition p_opt {A} (p : parser A) : parser (option A) :=
  p_alt (p_bind p (fun a => p_ret (Some a))) (p_ret None).

Definition p_sat {A} (f : ascii -> option A) : parser A :=
  fun s =>
    match s with
    | String c r => match f c with Some v => [(v, r)] | None => [] end
    | EmptyString => []
    end.

Definition p_digit (lo hi : Z) : parser Z := p_sat (digit_in lo hi).

(** A literal of the format; the pattern is compiled with [IGNORECASE]. *)
Definition p_lit (c : ascii) : parser unit :=
  p_sat (fun x => if lower x =? lower c then Some tt else None).

(** A literal of a directive's own pattern that is matched as it stands. *)
Definition p_exact (c : ascii) : parser unit :=
  p_sat (fun x => if code x =? code c then Some tt else None).

Definition p_two (a b c d : Z) : parser Z :=
  p_bind (p_digit a b) (fun x => p_bind (p_digit c d) (fun y => p_ret (10 * x + y))).

(** [%Y]: [\d\d\d\d]. *)
Definition p_Y : parser Z :=
  p_bind (p_two 0 9 0 9) (fun hi => p_bind (p_two 0 9 0 9) (fun lo => p_ret (100 * hi + lo))).

(** [%m]: [1[0-2]|0[1-9]|[1-9]]. *)
Definition p_m : parser Z :=
  p_alt (p_two 1 1 0 2) (p_alt (p_two 0 0 1 9) (p_digit 1 9)).

(** [%d]: [3[0-1]|[1-2]\d|0[1-9]|[1-9]| [1-9]]. *)
Definition p_d : parser Z :=
  p_alt (p_two 3 3 0 1) (p_alt (p_two 1 2 0 9) (p_alt (p_two 0 0 1 9)
    (p_alt (p_digit 1 9) (p_bind (p_exact " ") (fun _ => p_digit 1 9))))).

(** [%H]: [2[0-3]|[0-1]\d|\d]. *)
Definition p_H : parser Z :=
  p_alt (p_two 2 2 0 3) (p_alt (p_two 0 1 0 9) (p_digit 0 9)).

(** [%M]: [[0-5]\d|\d]. *)
Definition p_M : parser Z := p_alt (p_two 0 5 0 9) (p_digit 0 9).

(** [%S]: [6[0-1]|[0-5]\d|\d]. *)
Definition p_S : parser Z :=
  p_alt (p_two 6 6 0 1) (p_alt (p_two 0 5 0 9) (p_digit 0 9)).

(** [\s*], the longest run first. *)
Fixpoint spaces_star (s : string) : list (unit * string) :=
  match s with
  | String c r => if re_space c then spaces_star r ++ [(tt, s)] else [(tt, s)]
  | EmptyString => [(tt, s)]
  end.

(** [\s+]. *)
Definition p_ws : parser unit :=
  fun s =>
    match s with
    | String c r => if re_space c then spaces_star r else []
    | EmptyString => []
    end.

(** [\d{0,n}], the longest run first; the digits read and their number. *)
Fixpoint p_digits (n : nat) : parser (Z * nat) :=
  match n with
  | O => p_ret (0, O)
  | S n' =>
      p_alt (p_bind (p_digit 0 9) (fun d => p_bind (p_digits n') (fun vk =>
               p_ret (d * 10 ^ Z.of_nat (snd vk) + fst vk, S (snd vk)))))
            (p_ret (0, O))
  end.

(** [\.\d{1,6}], as microseconds (the digits padded with zeros on the
    right). *)
Definition p_fraction : parser Z :=
  p_bind (p_exact ".") (fun _ => p_bind (p_digit 0 9) (fun d => p_bind (p_digits 5) (fun vk =>
    let k := S (snd vk) in
    p_ret ((d * 10 ^ Z.of_nat (snd vk) + fst vk) * 10 ^ Z.of_nat (6 - k))))).

(** What [%z] matched: [Z], or a sign, hours, whether a colon followed,
    minutes and, when present, the seconds with their own colon flag and
    fraction. *)
Inductive zmatch :=
| ZUtc
| ZOffset (negative : bool) (hh : Z) (colon1 : bool) (mm : Z)
          (ss : option (bool * Z * option Z)).

Definition p_colon : parser bool :=
  p_alt (p_bind (p_exact ":") (fun _ => p_ret true)) (p_ret false).

Definition p_sign : parser bool :=
  p_alt (p_bind (p_exact "+") (fun _ => p_ret false))
        (p_bind (p_exact "-") (fun _ => p_ret true)).

(** [%z]: [[+-]\d\d:?[0-5]\d(:?[0-5]\d(\.\d{1,6})?)?|(?-i:Z)]. *)
Definition p_z : parser zmatch :=
  p_alt
    (p_bind p_sign (fun neg => p_bind (p_two 0 9 0 9) (fun hh =>
     p_bind p_colon (fun c1 => p_bind (p_two 0 5 0 9) (fun mm =>
     p_bind (p_opt (p_bind p_colon (fun c2 => p_bind (p_two 0 5 0 9) (fun ss =>
               p_bind (p_opt p_fraction) (fun fr => p_ret (c2, ss, fr))))))
            (fun sec => p_ret (ZOffset neg hh c1 mm sec)))))))
    (p_bind (p_exact "Z") (fun _ => p_ret ZUtc)).

(** The groups found, with the defaults of [_strptime]. *)
Record found := mkFound {
  f_Y : Z; f_m : Z; f_d : Z; f_H : Z; f_M : Z; f_S : Z; f_z : option zmatch
}.

Definition found0 : found := mkFound 1900 1 1 0 0 0 None.

(** One directive; [None] for a directive this reference does not cover. *)
Definition p_directive (c : ascii) (f : found) : option (parser found) :=
  let '(mkFound y mo d h mi se z) := f in
  if code c =? code "Y" then Some (p_bind p_Y (fun v => p_ret (mkFound v mo d h mi se z)))
  else if code c =? code "m" then Some (p_bind p_m (fun v => p_ret (mkFound y v d h mi se z)))
  else if code c =? code "d" then Some (p_bind p_d (fun v => p_ret (mkFound y mo v h mi se z)))
  else if code c =? code "H" then Some (p_bind p_H (fun v => p_ret (mkFound y mo d v mi se z)))
  else if code c =? code "M" then Some (p_bind p_M (fun v => p_ret (mkFound y mo d h v se z)))
  else if code c =? code "S" then Some (p_bind p_S (fun v => p_ret (mkFound y mo d h mi v z)))
  else if code c =? code "z" then Some (p_bind p_z (fun v => p_ret (mkFound y mo d h mi se (Some v))))
  else None.

(** The pattern of a format: a run of whitespace is [\s+], [%x] the
    pattern of directive [x], any other character itself. *)
Fixpoint p_format (after_space : bool) (fmt : string) (f : found) : parser found :=
  match fmt with
  | EmptyString => p_ret f
  | String c rest =>
      if re_space c then
        if after_space then p_format true rest f
        else p_bind p_ws (fun _ => p_format true rest f)
      else if code c =? code "%" then
        match rest with
        | String x rest' =>
            match p_directive x f with
            | Some p => p_bind p (fun f' => p_format false rest' f')
            | None => fun _ => []
            end
        | EmptyString => fun _ => []
        end
      else p_bind (p_lit c) (fun _ => p_format false rest f)
  end.

(** The offset [%z] stands for, in microseconds; [None] for the matches
    [_strptime] rejects (a colon used before the seconds and not before
    the minutes, or the reverse). *)
Definition z_offset (z : zmatch) : option Z :=
  match z with
  | ZUtc => Some 0
  | ZOffset neg hh c1 mm sec =>
      let sign := if neg then -1 else 1 in
      match sec with
      | None => Some (sign * ((hh * 3600 + mm * 60) * 1000000))
      | Some (c2, ss, fr) =>
          if Bool.eqb c1 c2
          then Some (sign * ((hh * 3600 + mm * 60 + ss) * 1000000 + default 0 fr))
          else None
      end
  end.

(** [datetime.timezone(timedelta(microseconds = off))]: the offset must lie
    strictly between minus and plus 24 hours. *)
Definition make_timezone (off : Z) : option timezone :=
  if (-86400000000 <? off) && (off <? 86400000000) then Some (mkTz off) else None.

(** [datetime(year, month, day, hour, minute, second, 0, tz)] with its
    range checks. *)
Definition make_datetime (f : found) (tz : option timezone) : option datetime :=
  if (1 <=? f_Y f) && (f_Y f <=? 9999)
     && (1 <=? f_m f) && (f_m f <=? 12)
     && (1 <=? f_d f) && (f_d f <=? days_in_month (f_Y f) (f_m f))
     && (f_H f <=? 23) && (f_M f <=? 59) && (f_S f <=? 59)
  then Some (mkDatetime (f_Y f) (f_m f) (f_d f) (f_H f) (f_M f) (f_S f) 0 tz)
  else None.

Definition build (f : found) : option datetime :=
  match f_z f with
  | None => make_datetime f None
  | Some z =>
      match z_offset z with
      | None => None
      | Some off =>
          match make_timezone off with
          | None => None
          | Some tz => make_datetime f (Some tz)
          end
      end
  end.

(** [datetime.datetime.strptime(s, fmt)]: the first match must cover the
    whole of [s]. *)
Definition strptime (s fmt : string) : option datetime :=
  match p_format false fmt found0 s with
  | (f, EmptyString) :: _ => build f
  | _ => None
  end.

(** [int(s)] in base 10: whitespace stripped at both ends, an optional
    sign, then digits, single underscores allowed between digits. *)
Fixpoint lstrip (s : string) : string :=
  match s with
  | String c r => if c_space c then lstrip r else s
  | EmptyString => s
  end.

Definition strip (s : string) : string :=
  String.rev (lstrip (String.rev (lstrip s))).

(** [acc]: the value read so far; [prev_digit]: whether the character
    before was a digit. *)
Fixpoint int_digits (s : string) (acc : Z) (prev_digit : bool) : option Z :=
  match s with
  | EmptyString => if prev_digit then Some acc else None
  | String c r =>
      match digit_in 0 9 c with
      | Some d => int_digits r (10 * acc + d) true
      | None =>
          if (code c =? code "_") && prev_digit then int_digits r acc false
          else None
      end
  end.

Definition py_int (s : string) : option Z :=
  match strip s with
  | String c r =>
      if code c =? code "-" then option_map Z.opp (int_digits r 0 false)
      else if code c =? code "+" then int_digits r 0 false
      else int_digits (String c r) 0 false
  | EmptyString => None
  end.

(** [datetime._ord2ymd]. *)
Definition ord2ymd (ordinal : Z) : Z * Z * Z :=
  let n := ordinal - 1 in
  let n400 := n / 146097 in
  let n := n mod 146097 in
  let n100 := n / 36524 in
  let n := n mod 36524 in
  let n4 := n / 1461 in
  let n := n mod 1461 in
  let n1 := n / 365 in
  let n := n mod 365 in
  let y := n400 * 400 + 1 + n100 * 100 + n4 * 4 + n1 in
  if (n1 =? 4) || (n100 =? 4) then (y - 1, 12, 31)
  else
    let m := (n + 50) / 32 in
    let preceding := days_before_month y m in
    if n <? preceding
    then (y, m - 1, n - (preceding - days_in_month y (m - 1)) + 1)
    else (y, m, n - preceding + 1).

(** [datetime.datetime.fromtimestamp(t, datetime.timezone.utc)] for an
    [int]: [OverflowError] outside the range of [time_t], [OSError] where
    [gmtime] fails, [ValueError] for a year outside 1..9999 (its message,
    which names the year, is abridged). *)
Definition fromtimestamp_utc (t : Z) : Result datetime :=
  if (t <? - 2 ^ 63) || (2 ^ 63 <=? t) then
    Raise (mkExc OverflowError "timestamp out of range for platform time_t" [] None)
  else if (t <? -67768040609740800) || (67768036191676799 <? t) then
    Raise (mkExc OSError "[Errno 75] Value too large for defined data type" [] None)
  else if (t <? -62135596800) || (253402300799 <? t) then
    Raise (mkExc ValueError "year is out of range" [] None)
  else
    let '(y, m, d) := ord2ymd (t / 86400 + epoch_ordinal) in
    let r := t mod 86400 in
    Ok (mkDatetime y m d (r / 3600) (r / 60 mod 60) (r mod 60) 0 (Some utc)).

End CPython.

#[export] Instance cpython : PyDatetime := {|
  strptime := CPython.strptime;
  py_int := CPython.py_int;
  fromtimestamp_utc := CPython.fromtimestamp_utc
|}.

(** ** A reference environment

    [argparse] for command lines whose options are written as separate
    words, the flag and then its value; the scrapers' constructors are a
    parameter, and their [setup_parser] returns; temporary names are the
    prefix followed by the first number not in use. *)
Module Reference.

(** [parser.error]: the usage message, then [SystemExit(2)]. *)
Definition usage_error : Exc := mkExc SystemExit "2" [] None.

(** The defaults of lines 60-65. *)
Definition defaults : Namespace := mkNamespace 0 3 None None None None None [].

Definition set_verbosity (v : Z) (a : Namespace) : Namespace :=
  mkNamespace v (retries a) (maxResults a) (format a) (since a) (scraper a) (cls a)
              (scraper_args a).
Definition set_retries (v : Z) (a : Namespace) : Namespace :=
  mkNamespace (verbosity a) v (maxResults a) (format a) (since a) (scraper a) (cls a)
              (scraper_args a).
Definition set_maxResults (v : Z) (a : Namespace) : Namespace :=
  mkNamespace (verbosity a) (retries a) (Some v) (format a) (since a) (scraper a) (cls a)
              (scraper_args a).
Definition set_format (v : string) (a : Namespace) : Namespace :=
  mkNamespace (verbosity a) (retries a) (maxResults a) (Some v) (since a) (scraper a) (cls a)
              (scraper_args a).
Definition set_since (v : datetime) (a : Namespace) : Namespace :=
  mkNamespace (verbosity a) (retries a) (maxResults a) (format a) (Some v) (scraper a) (cls a)
              (scraper_args a).
Definition set_scraper (n : string) (c : Cls) (rest : list string) (a : Namespace) : Namespace :=
  mkNamespace (verbosity a) (retries a) (maxResults a) (format a) (since a) (Some n) (Some c)
              rest.

Definition one_of (word : string) (flags : list string) : bool :=
  existsb (String.eqb word) flags.

(** The conversion of an option's value: argparse reports
    [ArgumentTypeError], [TypeError] and [ValueError] as usage errors and
    lets any other exception through. *)
Definition convert {A} (r : Result A) : Result A :=
  match r with
  | Ok a => Ok a
  | Raise e =>
      match exc_class e with
      | ArgumentTypeError | TypeError | ValueError => Raise usage_error
      | _ => Raise e
      end
  end.

(** [type = int]; the message of the [ValueError] is abridged. *)
Definition int_type (s : string) : Result Z :=
  match CPython.py_int s with
  | Some n => Ok n
  | None => Raise (mkExc ValueError "invalid literal for int() with base 10" [] None)
  end.

Fixpoint parse_words (p : ArgumentParser) (argv : list string) (a : Namespace)
    : Result Namespace :=
  match argv with
  | [] => Ok a
  | word :: rest =>
      if one_of word ["-v"; "--verbose"; "--verbosity"]
      then parse_words p rest (set_verbosity (verbosity a + 1) a)
      else if one_of word ["--retry"; "--retries"; "-n"; "--max-results"; "-f"; "--format"; "--since"]
      then
        match rest with
        | [] => Raise usage_error
        | value :: rest' =>
            if one_of word ["--retry"; "--retries"]
            then bind (convert (int_type value)) (fun n => parse_words p rest' (set_retries n a))
            else if one_of word ["-n"; "--max-results"]
            then bind (convert (int_type value)) (fun n => parse_words p rest' (set_maxResults n a))
            else if one_of word ["-f"; "--format"]
            then parse_words p rest' (set_format value a)
            else bind (convert (since_type p value)) (fun d => parse_words p rest' (set_since d a))
        end
      else if startswith word "-" then Raise usage_error
      else
        match name_parser_map p !! word with
        | Some c => Ok (set_scraper word c rest a)
        | None => Raise usage_error
        end
  end.

Definition parse_command_line (p : ArgumentParser) (argv : list string) : Result Namespace :=
  parse_words p argv defaults.

(** A generator that yields the items of a list and then ends. *)
Definition items_of_list (l : list Item) : Scraper :=
  fun k => match l !! k with
           | Some item => Yield item
           | None => StopIteration
           end.

End Reference.

Definition reference_with (repeated : RepeatedName)
    (scrapers : Cls -> Namespace -> Result Scraper) : Environment.
Proof.
  refine {| repeated_name := repeated;
            setup_parser := fun _ => Ok tt;
            parser_parse_args := Reference.parse_command_line;
            from_args := scrapers;
            mkstemp_name := fresh_string;
            mkstemp_fresh := fun prefix dir => fresh_string_fresh dir prefix;
            mkstemp_prefix := _ |}.
  intros s m.
  assert (Happ : forall a b : string, String.prefix a (a +:+ b) = true).
  { induction a as [|c a IH]; intros b; simpl.
    - destruct b; reflexivity.
    - destruct (Ascii.ascii_dec c c) as [_|n]; [apply IH|destruct n; reflexivity]. }
  unfold startswith, fresh_string.
  destruct (m !! s) as [a|] eqn:Hs.
  - clear a Hs.
    generalize 0%N (wf_guard 32 (fresh_string_R_wf s m) 0%N).
    fix FIX 2. intros n [acc]. simpl. unfold fresh_string_go at 1.
    destruct (Some_dec (m !! (s +:+ pretty n))) as [[x Hx]|Hn].
    + apply FIX.
    + apply Happ.
  - clear Hs. induction s as [|c s IH]; simpl; [reflexivity|].
    destruct (Ascii.ascii_dec c c) as [_|n]; [exact IH|destruct n; reflexivity].
Defined.

(** The reference environment with the argparse of Python 3.11. *)
#[export] Instance reference (scrapers : Cls -> Namespace -> Result Scraper) : Environment :=
  reference_with Rejects scrapers.

(** The same with the argparse of Python 3.10. *)
Definition reference_3_10 (scrapers : Cls -> Namespace -> Result Scraper) : Environment :=
  reference_with Replaces scrapers.


(* ===================================================================== *)
(** * The vocabulary of the statements                                    *)
(* ===================================================================== *)

(** [reachable roots c]: [c] is one of [roots] or a subclass, at any
    depth, of one of them. *)
Inductive reachable (roots : list Cls) : Cls -> Prop :=
| reach_root c : c ∈ roots -> reachable roots c
| reach_sub p c : reachable roots p -> c ∈ cls_subclasses p -> reachable roots c.

(** The loop of lines 68-74 when no [add_parser] and no [setup_parser]
    raises: the list it has walked and the map it has built when it ends. *)
Definition registry (roots : list Cls) : list Cls * gmap string Cls :=
  match register_loop Replaces (fun _ => Ok tt) [] roots ∅ with
  | Ok classes_map => classes_map
  | Raise _ => ([], ∅)
  end.

(** The classes the loop of lines 69-74 has walked when it ends, and the
    subcommands it has registered. *)
Definition visited (roots : list Cls) : list Cls := fst (registry roots).
Definition subcommands (roots : list Cls) : gmap string Cls := snd (registry roots).

(** The map after a class has been registered. *)
Definition stored (c : Cls) (m : gmap string Cls) : gmap string Cls :=
  match cls_name c with
  | Some n => <[n := c]> m
  | None => m
  end.

(** Lines 70-73 for the classes of [l], one after the other. *)
Fixpoint register_all (repeated : RepeatedName) (setup : Cls -> Result unit)
    (l : list Cls) (m : gmap string Cls) : Result (gmap string Cls) :=
  match l with
  | [] => Ok m
  | c :: l' =>
      match register_class repeated setup c m with
      | Raise e => Raise e
      | Ok m' => register_all repeated setup l' m'
      end
  end.

(** Two aware datetimes that denote the same instant. *)
Definition same_instant (a b : datetime) : Prop :=
  exists ta tb, tzinfo a = Some ta /\ tzinfo b = Some tb
                /\ utc_micros a ta = utc_micros b tb.

(** [print] for each text in turn. *)
Definition print_all (texts : list string) (w : World) : World :=
  fold_left (fun w' t => print t w') texts w.

(** [pulled args items w0 k w]: the loop started in [w0] comes to its
    [k]-th [next()] (counted from 0) in world [w], the [k] items before
    having been rendered without a [break]. *)
Inductive pulled (args : Namespace) (items : Scraper) (w0 : World) : nat -> World -> Prop :=
| pulled_first : pulled args items w0 O w0
| pulled_next k w item w' :
    pulled args items w0 k w ->
    items k = Yield item ->
    loop_body args (Z.of_nat k + 1) item w = (Returned Next, w') ->
    pulled args items w0 (S k) w'.

(** The same arguments with another [maxResults]. *)
Definition with_maxResults (n : option Z) (a : Namespace) : Namespace :=
  mkNamespace (verbosity a) (retries a) n (format a) (since a) (scraper a) (cls a)
              (scraper_args a).

(** The order in which the loop of lines 69-74 walks the classes: the
    first of the pending ones, then the rest with its subclasses behind. *)
Equations? walk (pending : list Cls) : list Cls by wf (forest_size pending) lt :=
  walk [] := [];
  walk (c :: rest) := c :: walk (rest ++ cls_subclasses c).
Proof.
  destruct c as [q n subs]; simpl.
  assert (H : forall a b, forest_size (a ++ b) = (forest_size a + forest_size b)%nat).
  { induction a as [|x a IH]; intros b; simpl; [reflexivity|rewrite IH; lia]. }
  rewrite H.
  assert (H2 : forall l, (fix sum (l : list Cls) : nat :=
                  match l with [] => O | x :: l' => (cls_size x + sum l')%nat end) l
               = forest_size l).
  { induction l as [|x l IH]; simpl; [reflexivity|rewrite IH; reflexivity]. }
  pose proof (H2 subs) as E. simpl in *. lia.
Qed.

(** The classes of [l] whose [name] is [n]. *)
Definition named (n : string) (l : list Cls) : list Cls :=
  filter (fun c => cls_name c = Some n) l.

(** The first [m] items of a sequence are yielded, are not cut off and
    render. *)
Definition renders_first (args : Namespace) (items : Scraper) (m : nat)
    (its : nat -> Item) (texts : nat -> string) : Prop :=
  forall j, (j < m)%nat ->
    items j = Yield (its j)
    /\ older_than_since args (its j) = Ok false
    /\ render args (its j) = Ok (texts j).

(** The test of line 24 on a frame record, [false] when the module of the
    frame is not known. *)
Definition frame_owned (fr : FrameRecord) : bool :=
  match fr_module fr with
  | Some module_name => owned module_name
  | None => false
  end.

(** The blocks of a list of frames, one after the other. *)
Definition blocks (frames : list FrameRecord) : string :=
  fold_right (fun fr acc => frame_block fr +:+ acc) "" frames.

(** [rendered_prefix args items k l]: the items and texts of [l] are, in
    order, the items the sequence yields from pull [k] on, none of them cut
    off by [since], each with the text it renders to. *)
Definition rendered_prefix (args : Namespace) (items : Scraper) (k : nat)
    (l : list (Item * string)) : Prop :=
  forall j it text, l !! j = Some (it, text) ->
    items (k + j)%nat = Yield it
    /\ older_than_since args it = Ok false
    /\ render args it = Ok text.

(** Why the loop ended without an exception, read against the sequence:
    [m] items were printed before. *)
Definition exit_justified (args : Namespace) (items : Scraper) (m : nat)
    (why : Exit) : Prop :=
  match why with
  | Exhausted => items m = StopIteration
  | ReachedOlder =>
      exists it, items m = Yield it /\ older_than_since args it = Ok true
  | ReachedMax =>
      (0 < m)%nat /\ reached_max args (Z.of_nat m) = true
  end.

(** The classes of a hierarchy, each class before its subclasses. *)
Fixpoint cls_flatten (c : Cls) : list Cls :=
  match c with
  | Class _ _ subs =>
      c :: (fix go (l : list Cls) : list Cls :=
              match l with
              | [] => []
              | x :: l' => cls_flatten x ++ go l'
              end) subs
  end.

Definition forest_flatten (l : list Cls) : list Cls := flat_map cls_flatten l.

(* ===================================================================== *)
(** * Sample data                                                         *)
(* ===================================================================== *)

(** Items dated by the second of 1970-01-01 they carry as their text. *)
Definition epoch_second (t : Z) : datetime := mkDatetime 1970 1 1 0 0 t 0 (Some utc).

Definition numbered_item (t : Z) : Item :=
  mkItem (epoch_second t) (Ok (pretty t)) (fun template => Ok (template +:+ pretty t)).

Definition five_items : Scraper :=
  Reference.items_of_list (map numbered_item [5; 4; 3; 2; 1]).

(** [-v --since 3], as [parse_datetime_arg] reads the [3]. *)
Definition since_3 : Namespace :=
  mkNamespace 1 3 None None (Some (epoch_second 3)) (Some "scraper") None [].

(** [-v -n 2]. *)
Definition max_2 : Namespace :=
  mkNamespace 1 3 (Some 2) None None (Some "scraper") None [].

(** A hierarchy of three levels with an abstract class in the middle, and
    an environment whose scrapers all yield [five_items]. *)
Definition sample_classes : list Cls :=
  [Class "TwitterSearchScraper" (Some "twitter-search")
     [Class "TwitterCommonScraper" None
        [Class "TwitterUserScraper" (Some "twitter-user") []]];
   Class "GabScraper" (Some "gab") []].

Definition sample_env : Environment := reference (fun _ _ => Ok five_items).

(** A failure in a scraper: [get_items] of a module of [snscrape] called a
    function of [snscrape.base], which raised. *)
Definition get_items_frame : FrameRecord :=
  mkFrame "snscrape/modules/twitter.py" 42 "get_items" (Some "snscrape.modules.twitter")
          [("self", mkObj "<TwitterSearchScraper>" (Some "{'_query': 'rocq'}"))].

Definition request_frame : FrameRecord :=
  mkFrame "snscrape/base.py" 77 "_request" (Some "snscrape.base")
          [("url", mkObj "'https://example.org'" None)].

Definition scraping_failed : Exc :=
  mkExc (OtherException "snscrape.base.ScraperException") "4 requests failed"
        [get_items_frame; request_frame] None.

(** The same failure raised one call deeper, in code compiled from a
    string ([exec], a generated [__init__]): [inspect.getmodule] finds no
    module for such a frame. *)
Definition generated_frame : FrameRecord :=
  mkFrame "<string>" 3 "__init__" None [].

Definition failed_in_generated_code : Exc :=
  mkExc ValueError "bad field" [get_items_frame; generated_frame] None.

(** A failure below [snscrape.base], in a library: the last frame belongs
    to no module of [snscrape]. *)
Definition adapter_frame : FrameRecord :=
  mkFrame "requests/adapters.py" 516 "send" (Some "requests.adapters")
          [("timeout", mkObj "10" None)].

Definition connection_failed : Exc :=
  mkExc (OtherException "requests.exceptions.ConnectionError") "connection refused"
        [get_items_frame; request_frame; adapter_frame] None.

(** A scraper class and a subclass that inherits its [name]. *)
Definition shadowing_classes : list Cls :=
  [Class "TwitterSearchScraper" (Some "twitter-search")
     [Class "TwitterHashtagScraper" (Some "twitter-search") []]].

(** An item whose [__str__] raises. *)
Definition unprintable_item : Item :=
  mkItem (epoch_second 4)
         (Raise (mkExc TypeError "__str__ returned non-string (type NoneType)" [] None))
         (fun template => Ok template).

(** An item whose date has no [tzinfo]. *)
Definition naive_item : Item :=
  mkItem (mkDatetime 2020 5 17 12 0 0 0 None) (Ok "naive") (fun template => Ok template).

(* ===================================================================== *)
(** * Properties                                                          *)
(* ===================================================================== *)

(** ** The datetime parser *)

Section DatetimeParser.
Context `{PyDatetime}.

Lemma try_formats_first (arg : string) (fs : list string) :
  try_formats arg fs = assume_utc <$> head (omap (strptime arg) fs).
Proof.
  induction fs as [|f fs IH]; simpl; [reflexivity|].
  destruct (strptime arg f) as [d|]; simpl; [reflexivity|exact IH].
Qed.

Lemma try_formats_at (arg : string) (fs : list string) :
  forall (k : nat) (layout : string) (d : datetime),
    fs !! k = Some layout ->
    (forall j earlier, (j < k)%nat -> fs !! j = Some earlier -> strptime arg earlier = None) ->
    strptime arg layout = Some d ->
    try_formats arg fs = Some (assume_utc d).
Proof.
  induction fs as [|f fs IH]; intros k layout d Hk Hearlier Hd; [discriminate|].
  destruct k as [|k]; simpl in *.
  - injection Hk as ->. rewrite Hd. reflexivity.
  - rewrite (Hearlier O f) by (simpl; (lia || reflexivity)).
    apply (IH k layout d Hk); [|exact Hd].
    intros j earlier Hj Hlook. apply (Hearlier (S j) earlier); [lia|exact Hlook].
Qed.

Lemma try_formats_none (arg : string) (fs : list string) :
  try_formats arg fs = None <-> forall f, f ∈ fs -> strptime arg f = None.
Proof.
  induction fs as [|f fs IH]; simpl.
  - split; [intros _ f Hf; inversion Hf|reflexivity].
  - destruct (strptime arg f) as [d|] eqn:E.
    + split; [discriminate|]. intros Hall.
      rewrite (Hall f) in E by constructor. discriminate.
    + rewrite IH. split.
      * intros Hall g Hg. inversion Hg; subst; [exact E|apply Hall; assumption].
      * intros Hall g Hg. apply Hall. constructor. exact Hg.
Qed.

Lemma assume_utc_tzinfo (d : datetime) :
  tzinfo (assume_utc d) = Some (default utc (tzinfo d)).
Proof. unfold assume_utc. destruct (tzinfo d) eqn:E; simpl; [exact E|reflexivity]. Qed.

Lemma assume_utc_fields (d : datetime) :
  replace_tzinfo (assume_utc d) None = replace_tzinfo d None.
Proof. unfold assume_utc. destruct (tzinfo d); reflexivity. Qed.

(** C4. The four layouts are tried in the order date time with offset,
    date time without offset, date with offset, date only, and the result
    of the first one that parses is returned: when layout number [k]
    parses [arg] into [d] and every layout before it fails, the parser
    returns [d], with [tzinfo] set to UTC when [d] has none and with every
    other field, and an offset [d] already has, unchanged. *)
Theorem parse_datetime_arg_first_layout
    (arg : string) (k : nat) (layout : string) (d : datetime) :
  formats !! k = Some layout ->
  (forall j earlier, (j < k)%nat -> formats !! j = Some earlier ->
                     strptime arg earlier = None) ->
  strptime arg layout = Some d ->
  formats = ["%Y-%m-%d %H:%M:%S %z"; "%Y-%m-%d %H:%M:%S"; "%Y-%m-%d %z"; "%Y-%m-%d"]
  /\ parse_datetime_arg arg = Ok (assume_utc d)
  /\ tzinfo (assume_utc d) = Some (default utc (tzinfo d))
  /\ replace_tzinfo (assume_utc d) None = replace_tzinfo d None.
Proof.
  intros Hk Hearlier Hd.
  split; [reflexivity|]. split.
  - unfold parse_datetime_arg.
    rewrite (try_formats_at arg formats k layout d Hk Hearlier Hd). reflexivity.
  - split; [apply assume_utc_tzinfo|apply assume_utc_fields].
Qed.

(** C5, as amended. For a string none of the four layouts matches: when
    [int] reads it and [fromtimestamp] returns, the parser returns that
    datetime; when [int] raises, or [fromtimestamp] raises [ValueError]
    (a year outside 1..9999), the parser raises [ArgumentTypeError] with
    the [repr] of the string in its message. *)
Theorem parse_datetime_arg_fallback (arg : string) :
  (forall layout, layout ∈ formats -> strptime arg layout = None) ->
  (forall n d, py_int arg = Some n -> fromtimestamp_utc n = Ok d ->
               parse_datetime_arg arg = Ok d)
  /\ (py_int arg = None -> parse_datetime_arg arg = Raise (cannot_parse arg))
  /\ (forall n e, py_int arg = Some n -> fromtimestamp_utc n = Raise e ->
                  is_ValueError (exc_class e) = true ->
                  parse_datetime_arg arg = Raise (cannot_parse arg))
  /\ exc_class (cannot_parse arg) = ArgumentTypeError
  /\ exc_msg (cannot_parse arg) = "Cannot parse " +:+ repr_str arg +:+ " into a datetime object".
Proof.
  intros Hnone. apply try_formats_none in Hnone.
  unfold parse_datetime_arg, try_unix_timestamp. rewrite Hnone.
  repeat split.
  - intros n d Hn Hd. rewrite Hn, Hd. reflexivity.
  - intros Hn. rewrite Hn. reflexivity.
  - intros n e Hn He Hv. rewrite Hn, He, Hv. reflexivity.
Qed.

(** What the amended C5 leaves open: an exception of [fromtimestamp] that
    is no [ValueError] leaves [parse_datetime_arg] as it is. *)
Lemma parse_datetime_arg_escapes (arg : string) (n : Z) (e : Exc) :
  (forall layout, layout ∈ formats -> strptime arg layout = None) ->
  py_int arg = Some n ->
  fromtimestamp_utc n = Raise e ->
  is_ValueError (exc_class e) = false ->
  parse_datetime_arg arg = Raise e.
Proof.
  intros Hnone Hn He Hv. apply try_formats_none in Hnone.
  unfold parse_datetime_arg, try_unix_timestamp.
  rewrite Hnone, Hn, He, Hv. reflexivity.
Qed.

(** Whatever the parser returns is aware, provided [fromtimestamp], which
    is given [datetime.timezone.utc], returns aware datetimes. *)
Lemma parse_datetime_arg_aware (arg : string) (d : datetime) :
  (forall n d', fromtimestamp_utc n = Ok d' -> tzinfo d' <> None) ->
  parse_datetime_arg arg = Ok d ->
  tzinfo d <> None.
Proof.
  intros Haware. unfold parse_datetime_arg.
  destruct (try_formats arg formats) as [d0|] eqn:E.
  - intros [= <-]. rewrite try_formats_first in E.
    destruct (head (omap (strptime arg) formats)) as [d1|]; [|discriminate].
    simpl in E. injection E as <-. rewrite assume_utc_tzinfo. discriminate.
  - unfold try_unix_timestamp. destruct (py_int arg) as [n|]; [|discriminate].
    destruct (fromtimestamp_utc n) as [d1|e] eqn:E1.
    + intros [= <-]. exact (Haware n d1 E1).
    + destruct (is_ValueError (exc_class e)); discriminate.
Qed.

End DatetimeParser.

(** The witness of C4: a bare date yields midnight UTC of that date. *)
Lemma date_only_is_midnight_utc :
  @parse_datetime_arg cpython "2023-01-02" = Ok (mkDatetime 2023 1 2 0 0 0 0 (Some utc)).
Proof.
  refine (proj1 (proj2 (@parse_datetime_arg_first_layout cpython "2023-01-02" 3%nat
                          "%Y-%m-%d" (mkDatetime 2023 1 2 0 0 0 0 None) eq_refl _ _))).
  - intros j earlier Hj.
    destruct j as [|[|[|j]]]; simpl; try lia; intros [= <-]; vm_compute; reflexivity.
  - vm_compute. reflexivity.
Defined.

(** The counterexample of C5: no layout matches ["253402300800"], [int]
    reads it, and the parser does not return a timestamp: the first second
    of the year 10000 is no [datetime]. *)
Lemma integer_string_can_be_unparsable :
  Forall (fun layout => @strptime cpython "253402300800" layout = None) formats
  /\ @py_int cpython "253402300800" = Some 253402300800
  /\ @fromtimestamp_utc cpython 253402300800
     = Raise (mkExc ValueError "year is out of range" [] None)
  /\ @parse_datetime_arg cpython "253402300800" = Raise (cannot_parse "253402300800").
Proof.
  split; [repeat constructor|]. vm_compute. repeat split.
Qed.

(** The witness of the amended C5. *)
Lemma unix_timestamp_is_parsed :
  @parse_datetime_arg cpython "1672628645" = Ok (mkDatetime 2023 1 2 3 4 5 0 (Some utc)).
Proof.
  refine (proj1 (@parse_datetime_arg_fallback cpython "1672628645" _)
                1672628645 _ _ _); [|vm_compute; reflexivity..].
  intros layout Hin. unfold formats in Hin.
  repeat (apply elem_of_cons in Hin as [->|Hin]; [vm_compute; reflexivity|]).
  inversion Hin.
Defined.

(** A third way out of the parser, beside the two of C5: [int] reads the
    string and [fromtimestamp] raises [OverflowError], which line 51 does
    not catch. *)
Example huge_timestamp_escapes :
  exists e, @parse_datetime_arg cpython "100000000000000000000" = Raise e
            /\ exc_class e = OverflowError.
Proof. eexists. vm_compute. split; reflexivity. Qed.

(** ** The scraper registry *)

(** The loop registers the classes in the order it walks them, and the
    order does not depend on what is registered. *)
Lemma register_loop_all (repeated : RepeatedName) (setup : Cls -> Result unit)
    (seen pending : list Cls) (m : gmap string Cls) :
  register_loop repeated setup seen pending m
  = bind (register_all repeated setup (walk pending) m)
         (fun m' => Ok (seen ++ walk pending, m')).
Proof.
  funelim (register_loop repeated setup seen pending m); simp walk.
  - simpl. rewrite app_nil_r. reflexivity.
  - simpl. destruct (register_class repeated setup c m) as [m'|e]; [|reflexivity].
    rewrite H. rewrite <- app_assoc. reflexivity.
Qed.

Lemma register_class_stored (repeated : RepeatedName) (setup : Cls -> Result unit)
    (c : Cls) (m m' : gmap string Cls) :
  register_class repeated setup c m = Ok m' -> m' = stored c m.
Proof.
  unfold register_class, stored, add_parser. destruct (cls_name c) as [n|].
  - destruct repeated; [|destruct (m !! n); [discriminate|]];
      simpl; destruct (setup c); intros [= <-]; reflexivity.
  - intros [= <-]. reflexivity.
Qed.

Lemma register_all_stored (repeated : RepeatedName) (setup : Cls -> Result unit)
    (l : list Cls) :
  forall (m m' : gmap string Cls),
    register_all repeated setup l m = Ok m' ->
    m' = fold_left (fun acc c => stored c acc) l m.
Proof.
  induction l as [|c l IH]; intros m m'; simpl; [intros [= <-]; reflexivity|].
  destruct (register_class repeated setup c m) as [m1|e] eqn:E; [|discriminate].
  apply register_class_stored in E as ->. apply IH.
Qed.

Lemma register_all_replaces (setup : Cls -> Result unit) (l : list Cls) :
  forall (m : gmap string Cls),
    (forall c, c ∈ l -> setup c = Ok tt) ->
    register_all Replaces setup l m = Ok (fold_left (fun acc c => stored c acc) l m).
Proof.
  induction l as [|c l IH]; intros m Hsetup; simpl; [reflexivity|].
  assert (E : register_class Replaces setup c m = Ok (stored c m)).
  { unfold register_class, stored. destruct (cls_name c) as [n|]; [|reflexivity].
    simpl. rewrite (Hsetup c) by constructor. reflexivity. }
  rewrite E. apply IH. intros c' Hc'. apply Hsetup. constructor. exact Hc'.
Qed.

Lemma registry_walk (roots : list Cls) :
  registry roots = (walk roots, fold_left (fun acc c => stored c acc) (walk roots) ∅).
Proof.
  unfold registry. rewrite register_loop_all, register_all_replaces by reflexivity.
  reflexivity.
Qed.

(** Whenever the loop ends without an exception, whatever the argparse and
    the [setup_parser]s, it has walked [visited roots] and built
    [subcommands roots]. *)
Lemma register_loop_registry (repeated : RepeatedName) (setup : Cls -> Result unit)
    (roots : list Cls) (classes_map : list Cls * gmap string Cls) :
  register_loop repeated setup [] roots ∅ = Ok classes_map ->
  classes_map = (visited roots, subcommands roots).
Proof.
  unfold visited, subcommands. rewrite registry_walk, register_loop_all. simpl.
  destruct (register_all repeated setup (walk roots) ∅) as [m'|e] eqn:E; [|discriminate].
  apply register_all_stored in E as ->. intros [= <-]. reflexivity.
Qed.

Lemma reachable_nil (c : Cls) : ~ reachable [] c.
Proof.
  intros Hr. induction Hr as [c Hc|p c _ IH _]; [inversion Hc|exact IH].
Qed.

Lemma reachable_cons (c : Cls) (rest : list Cls) (x : Cls) :
  reachable (c :: rest) x <-> x = c \/ reachable (rest ++ cls_subclasses c) x.
Proof.
  split.
  - intros Hr. induction Hr as [x Hx|p x _ IH Hsub].
    + apply elem_of_cons in Hx as [->|Hx]; [left; reflexivity|].
      right. apply reach_root. apply elem_of_app. left. exact Hx.
    + right. destruct IH as [->|IH].
      * apply reach_root. apply elem_of_app. right. exact Hsub.
      * apply (reach_sub _ p); assumption.
  - intros [->|Hr].
    + apply reach_root. constructor.
    + induction Hr as [x Hx|p x _ IH Hsub].
      * apply elem_of_app in Hx as [Hx|Hx].
        -- apply reach_root. apply elem_of_cons. right. exact Hx.
        -- apply (reach_sub _ c); [apply reach_root; constructor|exact Hx].
      * apply (reach_sub _ p); assumption.
Qed.

Lemma walk_reachable (pending : list Cls) (x : Cls) :
  x ∈ walk pending <-> reachable pending x.
Proof.
  funelim (walk pending); simp walk.
  - split; [intros Hx; inversion Hx|intros Hr; destruct (reachable_nil _ Hr)].
  - rewrite elem_of_cons, H, reachable_cons. reflexivity.
Qed.

Lemma fold_register_lookup (l : list Cls) (m : gmap string Cls) (n : string) :
  fold_left (fun m' c => stored c m') l m !! n
  = match last (named n l) with
    | Some c => Some c
    | None => m !! n
    end.
Proof.
  induction l as [|c l IH] using rev_ind; [reflexivity|].
  rewrite fold_left_app. simpl. unfold named. rewrite filter_app, filter_cons, filter_nil.
  unfold stored at 1.
  destruct (cls_name c) as [nc|] eqn:E.
  - destruct (decide (nc = n)) as [->|Hne].
    + rewrite lookup_insert_eq.
      destruct (decide (Some n = Some n)) as [_|Hn]; [|destruct Hn; reflexivity].
      rewrite last_snoc. reflexivity.
    + rewrite lookup_insert_ne by exact Hne.
      destruct (decide (Some nc = Some n)) as [Heq|_]; [injection Heq as ->; destruct Hne; reflexivity|].
      rewrite app_nil_r. exact IH.
  - destruct (decide (None = Some n)) as [Heq|_]; [discriminate|].
    rewrite app_nil_r. exact IH.
Qed.

Lemma last_named_elem (n : string) (l : list Cls) (c : Cls) :
  last (named n l) = Some c -> c ∈ l /\ cls_name c = Some n.
Proof.
  intros Hl. assert (Hc : c ∈ named n l).
  { apply last_Some in Hl as [l' Hl]. rewrite Hl. apply elem_of_app. right. constructor. }
  unfold named in Hc. apply list_elem_of_filter in Hc as [Hn Hc]. split; assumption.
Qed.

Lemma named_elem_last (n : string) (l : list Cls) (c : Cls) :
  c ∈ l -> cls_name c = Some n -> is_Some (last (named n l)).
Proof.
  intros Hc Hn. assert (Hin : c ∈ named n l).
  { unfold named. apply list_elem_of_filter. split; assumption. }
  destruct (named n l) as [|x l'] using rev_ind; [inversion Hin|].
  rewrite last_snoc. eexists. reflexivity.
Qed.

(** C6, as amended. The loop walks exactly the classes reachable from the
    root's subclasses, at any depth and whether the classes on the way
    have a name or not; a name is a subcommand exactly when a reachable
    class has it as its [name], the empty string included; and a
    subcommand leads to a reachable class of that name. *)
Theorem registry_surfaces_named_classes (roots : list Cls) :
  (forall c, c ∈ visited roots <-> reachable roots c)
  /\ (forall n, is_Some (subcommands roots !! n)
                <-> exists c, reachable roots c /\ cls_name c = Some n)
  /\ (forall n c, subcommands roots !! n = Some c ->
                  reachable roots c /\ cls_name c = Some n).
Proof.
  unfold visited, subcommands. rewrite registry_walk. simpl.
  split; [intros c; apply walk_reachable|].
  assert (Hsome : forall n c,
             fold_left (fun m' c0 => stored c0 m') (walk roots) ∅ !! n = Some c ->
             reachable roots c /\ cls_name c = Some n).
  { intros n c. rewrite fold_register_lookup, lookup_empty.
    destruct (last (named n (walk roots))) as [c'|] eqn:E; [|discriminate].
    intros [= <-]. apply last_named_elem in E as [Hin Hn].
    split; [apply walk_reachable; exact Hin|exact Hn]. }
  split; [|exact Hsome].
  intros n. split.
  - intros [c Hc]. exists c. apply (Hsome n c Hc).
  - intros [c [Hr Hn]]. rewrite fold_register_lookup.
    apply walk_reachable in Hr.
    destruct (named_elem_last n (walk roots) c Hr Hn) as [c' Hc'].
    rewrite Hc'. eexists. reflexivity.
Qed.

(** The witness of the amended C6: a named class two levels down, below a
    class without a name, is a subcommand. *)
Lemma nested_scraper_is_surfaced :
  is_Some (subcommands sample_classes !! "twitter-user").
Proof.
  apply (proj2 (proj1 (proj2 (registry_surfaces_named_classes sample_classes))
                      "twitter-user")).
  exists (Class "TwitterUserScraper" (Some "twitter-user") []).
  split; [|reflexivity].
  eapply reach_sub; [eapply reach_sub; [apply reach_root|]|]; simpl; constructor.
Defined.

(** The counterexample of C6: a class whose [name] is the empty string is
    registered as a subcommand. *)
Lemma empty_name_is_surfaced :
  cls_name (Class "snscrape.modules.x.XScraper" (Some "") []) = Some ""
  /\ subcommands [Class "snscrape.modules.x.XScraper" (Some "") []] !! ""
     = Some (Class "snscrape.modules.x.XScraper" (Some "") []).
Proof. split; [reflexivity|vm_compute; reflexivity]. Qed.

(** The parser of line 76 holds the subcommands of the registry. *)
Lemma build_parser_ok `{PyDatetime} `{Environment} (roots : list Cls)
    (classes_map : list Cls * gmap string Cls) :
  register_loop repeated_name setup_parser [] roots ∅ = Ok classes_map ->
  build_parser roots = Ok (mkParser parse_datetime_arg (subcommands roots)).
Proof.
  intros Hloop. unfold build_parser. rewrite Hloop.
  apply register_loop_registry in Hloop as ->. reflexivity.
Qed.

Lemma build_parser_registry `{PyDatetime} `{Environment} (roots : list Cls)
    (parser : ArgumentParser) :
  build_parser roots = Ok parser ->
  parser = mkParser parse_datetime_arg (subcommands roots).
Proof.
  unfold build_parser.
  destruct (register_loop repeated_name setup_parser [] roots ∅) as [classes_map|e] eqn:E;
    [|discriminate].
  apply register_loop_registry in E as ->. intros [= <-]. reflexivity.
Qed.

Lemma named_cons (n : string) (c : Cls) (l : list Cls) :
  named n (c :: l)
  = if decide (cls_name c = Some n) then c :: named n l else named n l.
Proof. unfold named. rewrite filter_cons. reflexivity. Qed.

(** An argparse that rejects a repeated name stops the registration at the
    first class whose name is taken. *)
Lemma register_all_rejects (setup : Cls -> Result unit) (l : list Cls) :
  forall (m : gmap string Cls) (n : string),
    (forall c, c ∈ l -> setup c = Ok tt) ->
    (2 <= length (named n l))%nat
    \/ (is_Some (m !! n) /\ (1 <= length (named n l))%nat) ->
    exists n',
      ((2 <= length (named n' l))%nat
       \/ (is_Some (m !! n') /\ (1 <= length (named n' l))%nat))
      /\ register_all Rejects setup l m = Raise (conflicting_subparser n').
Proof.
  induction l as [|c l IH]; intros m n Hsetup Hshared.
  - simpl in Hshared. destruct Hshared as [Hlen|[_ Hlen]]; lia.
  - assert (Hrest : forall c', c' ∈ l -> setup c' = Ok tt).
    { intros c' Hc'. apply Hsetup. constructor. exact Hc'. }
    cbn [register_all]. unfold register_class, add_parser.
    destruct (cls_name c) as [nc|] eqn:Hc.
    + destruct (m !! nc) as [c0|] eqn:Hm.
      * exists nc. split; [|reflexivity]. right. split; [exists c0; exact Hm|].
        rewrite named_cons, Hc.
        destruct (decide (Some nc = Some nc)) as [_|Hne];
          [cbn [length]; lia|destruct Hne; reflexivity].
      * cbn [bind]. rewrite (Hsetup c) by constructor. cbn [bind].
        destruct (IH (<[nc := c]> m) n Hrest) as [n' [Hn' Hraise]].
        { rewrite named_cons, Hc in Hshared.
          destruct (decide (Some nc = Some n)) as [[= ->]|Hne].
          - right. split; [rewrite lookup_insert_eq; eexists; reflexivity|].
            destruct Hshared as [Hlen|[[c0 Hc0] _]]; [simpl in Hlen; lia|congruence].
          - destruct Hshared as [Hlen|[Hin Hlen]]; [left; exact Hlen|].
            right. split; [|exact Hlen].
            rewrite lookup_insert_ne by congruence. exact Hin. }
        exists n'. split; [|exact Hraise].
        rewrite named_cons, Hc.
        destruct (decide (Some nc = Some n')) as [[= ->]|Hne].
        -- left. destruct Hn' as [Hlen|[_ Hlen]]; simpl; lia.
        -- destruct Hn' as [Hlen|[Hin Hlen]]; [left; exact Hlen|].
           right. split; [|exact Hlen].
           rewrite lookup_insert_ne in Hin by congruence. exact Hin.
    + destruct (IH m n Hrest) as [n' [Hn' Hraise]].
      { rewrite named_cons, Hc in Hshared.
        destruct (decide (None = Some n)) as [Heq|_]; [discriminate|]. exact Hshared. }
      exists n'. split; [|exact Hraise].
      rewrite named_cons, Hc.
      destruct (decide (None = Some n')) as [Heq|_]; [discriminate|]. exact Hn'.
Qed.

(** C7, as amended. The driver tests no name against the names registered
    before; what happens when the loop walks two classes of one name is
    what [add_parser] does at line 71. Let every [setup_parser] return.
    With an argparse that rejects a repeated name (Python 3.11 and later),
    the loop ends with [ArgumentError] for a name that two walked classes
    share, no parser is built, and [parse_args] and [main] end with this
    exception before the command line is read and with nothing done. With
    an argparse that replaces (up to Python 3.10), the loop ends without an
    exception, and each subcommand leads to the class of that name the loop
    walked last: the later registration has replaced the earlier one. *)
Theorem registry_name_collision `{PyDatetime} `{Environment}
    (roots : list Cls) (n : string) :
  (forall c, c ∈ visited roots -> setup_parser c = Ok tt) ->
  (2 <= length (named n (visited roots)))%nat ->
  match repeated_name with
  | Rejects =>
      exists n',
        (2 <= length (named n' (visited roots)))%nat
        /\ exc_class (conflicting_subparser n') = ArgumentError
        /\ build_parser roots = Raise (conflicting_subparser n')
        /\ forall argv fuel w,
             parse_args roots argv = Raise (conflicting_subparser n')
             /\ main fuel roots argv w = Some (Raise (conflicting_subparser n'), w)
  | Replaces =>
      exists parser,
        build_parser roots = Ok parser
        /\ name_parser_map parser = subcommands roots
        /\ forall n', subcommands roots !! n' = last (named n' (visited roots))
  end.
Proof.
  intros Hsetup Hshared.
  assert (Hv : visited roots = walk roots).
  { unfold visited. rewrite registry_walk. reflexivity. }
  assert (Hs : subcommands roots = fold_left (fun acc c => stored c acc) (walk roots) ∅).
  { unfold subcommands. rewrite registry_walk. reflexivity. }
  rewrite Hv in Hsetup, Hshared.
  unfold parse_args, main, parse_args, build_parser.
  rewrite register_loop_all.
  destruct repeated_name.
  - rewrite (register_all_replaces _ _ _ Hsetup). simpl.
    eexists. split; [reflexivity|]. split; [symmetry; exact Hs|].
    intros n'. rewrite Hs, Hv, fold_register_lookup, lookup_empty.
    destruct (last (named n' (walk roots))); reflexivity.
  - destruct (register_all_rejects _ _ ∅ n Hsetup (or_introl Hshared))
      as [n' [Hn' Hraise]].
    rewrite Hraise. simpl. exists n'. rewrite Hv.
    split; [|repeat split].
    destruct Hn' as [Hlen|[[c Hc] _]]; [exact Hlen|].
    rewrite lookup_empty in Hc. discriminate.
Qed.

(** The witness of the amended C7: [shadowing_classes] under the argparse
    of Python 3.11 and under that of Python 3.10. *)
Lemma shared_name_under_both_argparses :
  (exists n',
     (2 <= length (named n' (visited shadowing_classes)))%nat
     /\ exc_class (conflicting_subparser n') = ArgumentError
     /\ @build_parser cpython (reference (fun _ _ => Ok five_items)) shadowing_classes
        = Raise (conflicting_subparser n')
     /\ forall argv fuel w,
          @parse_args cpython (reference (fun _ _ => Ok five_items)) shadowing_classes argv
          = Raise (conflicting_subparser n')
          /\ @main cpython (reference (fun _ _ => Ok five_items)) fuel shadowing_classes argv w
             = Some (Raise (conflicting_subparser n'), w))
  /\ (exists parser,
        @build_parser cpython (reference_3_10 (fun _ _ => Ok five_items)) shadowing_classes
        = Ok parser
        /\ name_parser_map parser = subcommands shadowing_classes
        /\ forall n', subcommands shadowing_classes !! n'
                      = last (named n' (visited shadowing_classes))).
Proof.
  split.
  - apply (@registry_name_collision cpython (reference (fun _ _ => Ok five_items))
             shadowing_classes "twitter-search").
    + intros c Hc. reflexivity.
    + vm_compute. lia.
  - apply (@registry_name_collision cpython (reference_3_10 (fun _ _ => Ok five_items))
             shadowing_classes "twitter-search").
    + intros c Hc. reflexivity.
    + vm_compute. lia.
Defined.

(** The counterexample of C7: with the argparse of Python 3.10, a subclass
    that inherits the [name] of its base is registered under that name
    after it; no exception is raised, and the subcommand leads to the
    subclass. *)
Lemma shared_name_is_shadowed_up_to_python_3_10 :
  visited shadowing_classes
  = [Class "TwitterSearchScraper" (Some "twitter-search")
       [Class "TwitterHashtagScraper" (Some "twitter-search") []];
     Class "TwitterHashtagScraper" (Some "twitter-search") []]
  /\ @parse_args cpython (reference_3_10 (fun _ _ => Ok five_items))
       shadowing_classes ["twitter-search"]
     = Ok (mkNamespace 0 3 None None None (Some "twitter-search")
             (Some (Class "TwitterHashtagScraper" (Some "twitter-search") [])) [])
  /\ @main cpython (reference_3_10 (fun _ _ => Ok five_items)) 10
       shadowing_classes ["twitter-search"] world0
     = Some (Ok Exhausted,
             mkWorld ["5"; "4"; "3"; "2"; "1"] [] WARNING ∅
                     [Class "TwitterHashtagScraper" (Some "twitter-search") []]).
Proof. vm_compute. repeat split. Qed.

(** The same command line with the argparse of Python 3.11. *)
Example shared_name_is_rejected_from_python_3_11 :
  @main cpython (reference (fun _ _ => Ok five_items)) 10
        shadowing_classes ["twitter-search"] world0
  = Some (Raise (conflicting_subparser "twitter-search"), world0).
Proof. vm_compute. reflexivity. Qed.

(** ** Selecting no scraper *)

(** C8. When the command line names no subcommand, that is, when
    [parser.parse_args()], called at line 76 on the parser of lines 59-74,
    returns arguments whose [scraper] is [None], [parse_args] raises the
    [RuntimeError] of line 80 and [main] ends with it in the world it
    started in: no [from_args] has run, nothing is printed, no item is
    pulled, whatever the fuel. *)
Theorem no_scraper_selected `{PyDatetime} `{Environment}
    (fuel : nat) (roots : list Cls) (argv : list string) (w : World)
    (parser : ArgumentParser) (args : Namespace) :
  build_parser roots = Ok parser ->
  parser_parse_args parser argv = Ok args ->
  scraper args = None ->
  parse_args roots argv = Raise no_scraper
  /\ main fuel roots argv w = Some (Raise no_scraper, w)
  /\ exc_class no_scraper = RuntimeError.
Proof.
  intros Hparser Hparse Hnone.
  assert (Hargs : parse_args roots argv = Raise no_scraper).
  { unfold parse_args. rewrite Hparser. simpl. rewrite Hparse. simpl.
    rewrite Hnone. reflexivity. }
  split; [exact Hargs|]. split; [|reflexivity].
  unfold main. rewrite Hargs. reflexivity.
Qed.

(** The witness of C8: options alone, no subcommand. *)
Lemma no_scraper_selected_witness :
  @main cpython (reference (fun _ _ => Ok (Reference.items_of_list []))) 0
        [Class "TwitterSearchScraper" (Some "twitter-search") []]
        ["-v"; "--max-results"; "5"] world0
  = Some (Raise no_scraper, world0).
Proof.
  refine (proj1 (proj2 (@no_scraper_selected cpython
            (reference (fun _ _ => Ok (Reference.items_of_list []))) 0
            [Class "TwitterSearchScraper" (Some "twitter-search") []]
            ["-v"; "--max-results"; "5"] world0
            (mkParser (@parse_datetime_arg cpython)
               (subcommands [Class "TwitterSearchScraper" (Some "twitter-search") []]))
            (mkNamespace 1 3 (Some 5) None None None None []) _ _ _)));
    [eapply build_parser_ok|..]; vm_compute; reflexivity.
Defined.

(** ** The execution loop *)

Lemma stdout_logger_log (level : Z) (msg : string) (w : World) :
  stdout (logger_log level msg w) = stdout w.
Proof. unfold logger_log. destruct (root_level w <=? level); reflexivity. Qed.

Lemma stdout_logger_info (msg : string) (w : World) :
  stdout (logger_info msg w) = stdout w.
Proof. apply stdout_logger_log. Qed.

Lemma stdout_print_all (texts : list string) (w : World) :
  stdout (print_all texts w) = stdout w ++ texts.
Proof.
  revert w. induction texts as [|t texts IH]; intros w; simpl.
  - rewrite app_nil_r. reflexivity.
  - unfold print_all in IH. rewrite IH. simpl. rewrite <- app_assoc. reflexivity.
Qed.

Lemma print_all_snoc (texts : list string) (t : string) (w : World) :
  print_all (texts ++ [t]) w = print t (print_all texts w).
Proof. unfold print_all. rewrite fold_left_app. reflexivity. Qed.

(** An instant is not strictly before itself. *)
Lemma same_instant_not_older (a b : datetime) :
  same_instant a b -> datetime_lt a b = Ok false.
Proof.
  intros [ta [tb [Ha [Hb Heq]]]]. unfold datetime_lt. rewrite Ha, Hb, Heq.
  rewrite Z.ltb_irrefl. reflexivity.
Qed.

(** The three ways one pass through lines 112-121 can go. *)
Lemma loop_body_cases (args : Namespace) (i : Z) (item : Item) (w : World) :
  (exists e, older_than_since args item = Raise e
             /\ loop_body args i item w = (Raised 112 e, w))
  \/ (older_than_since args item = Ok true
      /\ loop_body args i item w
         = (Returned (Break ReachedOlder),
            logger_info ("Exiting due to reaching older results than " +:+ str_since args) w))
  \/ (older_than_since args item = Ok false
      /\ ((exists e, render args item = Raise e
                     /\ loop_body args i item w = (Raised (render_lineno args) e, w))
          \/ (exists text, render args item = Ok text
                /\ loop_body args i item w
                   = if reached_max args i
                     then (Returned (Break ReachedMax),
                           logger_info ("Exiting after " +:+ pretty i +:+ " results")
                                       (print text w))
                     else (Returned Next, print text w)))).
Proof.
  unfold loop_body.
  destruct (older_than_since args item) as [[|]|e].
  - right. left. split; reflexivity.
  - right. right. split; [reflexivity|].
    destruct (render args item) as [text|e].
    + right. exists text. split; reflexivity.
    + left. exists e. split; reflexivity.
  - left. exists e. split; reflexivity.
Qed.

(** A pass through the body keeps what was printed and adds at most the
    text of its item. *)
Lemma loop_body_stdout (args : Namespace) (i : Z) (item : Item) (w w' : World)
    (o : Outcome Step) :
  loop_body args i item w = (o, w') ->
  exists more, stdout w' = stdout w ++ more.
Proof.
  intros Hb.
  destruct (loop_body_cases args i item w)
    as [[e [_ Hc]]|[[_ Hc]|[_ [[e [_ Hc]]|[text [_ Hc]]]]]];
    rewrite Hc in Hb.
  - injection Hb as _ <-. exists []. rewrite app_nil_r. reflexivity.
  - injection Hb as _ <-. exists []. rewrite stdout_logger_info, app_nil_r. reflexivity.
  - injection Hb as _ <-. exists []. rewrite app_nil_r. reflexivity.
  - destruct (reached_max args i); injection Hb as _ <-; exists [text].
    + rewrite stdout_logger_info. reflexivity.
    + reflexivity.
Qed.

Lemma for_loop_stdout (args : Namespace) (items : Scraper) (fuel : nat) :
  forall (k : nat) (w w' : World) (r : Outcome Exit),
    for_loop fuel args items k w = Some (r, w') ->
    exists more, stdout w' = stdout w ++ more.
Proof.
  induction fuel as [|fuel IH]; intros k w w' r Hrun; [discriminate|].
  simpl in Hrun. destruct (items k) as [item| |e].
  - destruct (loop_body args (Z.of_nat k + 1) item w) as [o w1] eqn:Hb.
    destruct (loop_body_stdout _ _ _ _ _ _ Hb) as [m1 Hm1].
    destruct o as [[|why]|lineno e].
    + destruct (IH _ _ _ _ Hrun) as [m2 Hm2]. exists (m1 ++ m2).
      rewrite Hm2, Hm1, app_assoc. reflexivity.
    + injection Hrun as _ <-. exists m1. exact Hm1.
    + injection Hrun as _ <-. exists m1. exact Hm1.
  - injection Hrun as _ <-. exists []. rewrite stdout_logger_info, app_nil_r. reflexivity.
  - injection Hrun as _ <-. exists []. rewrite app_nil_r. reflexivity.
Qed.

(** A loop that has come to its [k]-th pull goes on from there. *)
Lemma for_loop_pulled (args : Namespace) (items : Scraper) (w0 : World)
    (k : nat) (w : World) :
  pulled args items w0 k w ->
  forall fuel, for_loop (k + fuel) args items O w0 = for_loop fuel args items k w.
Proof.
  induction 1 as [|k w item w' _ IH Hitem Hbody]; intros fuel; [reflexivity|].
  replace (S k + fuel)%nat with (k + S fuel)%nat by lia.
  rewrite IH. simpl. rewrite Hitem, Hbody. reflexivity.
Qed.

Lemma pulled_before (args : Namespace) (items : Scraper) (w0 : World)
    (k : nat) (w : World) :
  pulled args items w0 k w ->
  forall j, (j <= k)%nat -> exists wj, pulled args items w0 j wj.
Proof.
  induction 1 as [|k w item w' Hp IH Hitem Hbody]; intros j Hj.
  - assert (j = O) as -> by lia. exists w0. constructor.
  - destruct (decide (j = S k)) as [->|Hne].
    + exists w'. apply (pulled_next _ _ _ k w item w'); assumption.
    + apply IH. lia.
Qed.

(** With no more fuel than pulls already due, the loop is still running. *)
Lemma for_loop_short (args : Namespace) (items : Scraper) (w0 : World)
    (k : nat) (w : World) (fuel : nat) :
  pulled args items w0 k w -> (fuel <= k)%nat ->
  for_loop fuel args items O w0 = None.
Proof.
  intros Hp Hle. destruct (pulled_before _ _ _ _ _ Hp fuel Hle) as [wj Hj].
  pose proof (for_loop_pulled _ _ _ _ _ Hj O) as E.
  rewrite Nat.add_0_r in E. rewrite E. reflexivity.
Qed.

(** An item that is pulled and is not older than [since] is printed, in
    every run that ends. *)
Lemma not_older_is_rendered (args : Namespace) (items : Scraper) (w0 : World)
    (k : nat) (w : World) (item : Item) (text : string) :
  pulled args items w0 k w ->
  items k = Yield item ->
  older_than_since args item = Ok false ->
  render args item = Ok text ->
  forall fuel r w', for_loop fuel args items O w0 = Some (r, w') ->
                    exists more, stdout w' = stdout w ++ text :: more.
Proof.
  intros Hp Hitem Hold Hrender fuel r w' Hrun.
  destruct (le_lt_dec fuel k) as [Hle|Hlt].
  - rewrite (for_loop_short _ _ _ _ _ _ Hp Hle) in Hrun. discriminate.
  - replace fuel with (k + S (fuel - S k))%nat in Hrun by lia.
    rewrite (for_loop_pulled _ _ _ _ _ Hp) in Hrun. simpl in Hrun.
    rewrite Hitem in Hrun. unfold loop_body in Hrun. rewrite Hold, Hrender in Hrun.
    destruct (reached_max args (Z.of_nat k + 1)).
    + injection Hrun as _ <-. exists []. rewrite stdout_logger_info. reflexivity.
    + destruct (for_loop_stdout _ _ _ _ _ _ _ Hrun) as [more Hmore].
      exists more. rewrite Hmore. simpl. rewrite <- app_assoc. reflexivity.
Qed.

(** C1. In a run with [since] set, take any item the loop pulls. If its
    date is strictly older than [since], the loop ends there without an
    exception, by the [break] of line 114, and the output is what it was
    before this item. If its date is the instant of [since], the pass
    through the body prints its text, which is in the output of every run
    that ends. *)
Theorem since_cutoff_excludes_older
    (args : Namespace) (items : Scraper) (s : datetime) (w0 : World)
    (k : nat) (w : World) (item : Item) :
  since args = Some s ->
  pulled args items w0 k w ->
  items k = Yield item ->
  (datetime_lt (date item) s = Ok true ->
   forall fuel, (k < fuel)%nat ->
     for_loop fuel args items O w0
     = Some (Returned ReachedOlder,
             logger_info ("Exiting due to reaching older results than " +:+ str_datetime s) w)
     /\ stdout (logger_info ("Exiting due to reaching older results than "
                              +:+ str_datetime s) w)
        = stdout w)
  /\ (same_instant (date item) s ->
      forall text, render args item = Ok text ->
        (exists step w', loop_body args (Z.of_nat k + 1) item w = (Returned step, w')
                         /\ stdout w' = stdout w ++ [text])
        /\ (forall fuel r w', for_loop fuel args items O w0 = Some (r, w') ->
                              exists more, stdout w' = stdout w ++ text :: more)).
Proof.
  intros Hsince Hp Hitem. split.
  - intros Hold fuel Hfuel.
    replace fuel with (k + S (fuel - S k))%nat by lia.
    rewrite (for_loop_pulled _ _ _ _ _ Hp). simpl. rewrite Hitem.
    unfold loop_body, older_than_since, str_since. rewrite Hsince, Hold.
    split; [reflexivity|apply stdout_logger_info].
  - intros Hsame text Hrender.
    assert (Hold : older_than_since args item = Ok false).
    { unfold older_than_since. rewrite Hsince. apply same_instant_not_older. exact Hsame. }
    split.
    + unfold loop_body. rewrite Hold, Hrender.
      destruct (reached_max args (Z.of_nat k + 1)); eexists; eexists;
        (split; [reflexivity|]); [rewrite stdout_logger_info|]; reflexivity.
    + apply (not_older_is_rendered args items w0 k w item text Hp Hitem Hold Hrender).
Qed.

(** The witness of C1: dates [5, 4, 3, 2, 1] and [since] 3. The items dated
    5, 4 and 3 are printed, and the loop stops at the item dated 2. *)
Lemma since_3_renders_5_4_3 :
  @parse_datetime_arg cpython "3" = Ok (epoch_second 3)
  /\ for_loop 4 since_3 five_items O (setup_logging 1 world0)
     = Some (Returned ReachedOlder,
             mkWorld ["5"; "4"; "3"]
                     [(INFO, "Exiting due to reaching older results than 1970-01-01 00:00:03+00:00")]
                     INFO ∅ []).
Proof.
  split; [vm_compute; reflexivity|].
  refine (proj1 (proj1 (since_cutoff_excludes_older since_3 five_items (epoch_second 3)
                          (setup_logging 1 world0) 3%nat
                          (print_all ["5"; "4"; "3"] (setup_logging 1 world0))
                          (numbered_item 2) eq_refl _ eq_refl) _ 4%nat _)).
  - eapply pulled_next;
      [eapply pulled_next;
         [eapply pulled_next; [apply pulled_first|reflexivity|vm_compute; reflexivity]
         |reflexivity|vm_compute; reflexivity]
      |reflexivity|vm_compute; reflexivity].
  - vm_compute. reflexivity.
  - lia.
Defined.

Lemma reached_max_iff (args : Namespace) (n i : Z) :
  maxResults args = Some n -> 0 < n -> reached_max args i = (n <=? i).
Proof.
  intros Hn Hpos. unfold reached_max. rewrite Hn.
  destruct (n =? 0) eqn:E; [apply Z.eqb_eq in E; lia|reflexivity].
Qed.

(** While the count is below the cap the loop goes on. *)
Lemma pulled_below_cap (args : Namespace) (items : Scraper) (n : Z) (w0 : World)
    (its : nat -> Item) (texts : nat -> string) :
  maxResults args = Some n -> 0 < n ->
  renders_first args items (Z.to_nat n) its texts ->
  forall j, (j < Z.to_nat n)%nat ->
    pulled args items w0 j (print_all (map texts (seq 0 j)) w0).
Proof.
  intros Hn Hpos Hfirst j. induction j as [|j IH]; intros Hj; [constructor|].
  destruct (Hfirst j) as [Hitem [Hold Hrender]]; [lia|].
  rewrite seq_S, map_app. cbn [map]. rewrite print_all_snoc. simpl.
  apply (pulled_next _ _ _ j (print_all (map texts (seq 0 j)) w0) (its j));
    [apply IH; lia|exact Hitem|].
  unfold loop_body. rewrite Hold, Hrender, (reached_max_iff args n _ Hn Hpos).
  destruct (n <=? Z.of_nat j + 1) eqn:E; [apply Z.leb_le in E; lia|reflexivity].
Qed.

(** C2. With [maxResults] a positive [n] and a sequence whose first [n]
    items are yielded, are not cut off by [since] and render, the loop
    prints exactly these [n] texts and ends by the [break] of line 121,
    without an exception. Within one pass the cutoff is tested before the
    item is printed (an item that is cut off is not printed, whatever the
    count) and the cap after (the item that reaches the count is printed,
    then the loop ends). *)
Theorem max_results_includes_last
    (args : Namespace) (items : Scraper) (n : Z) (w0 : World)
    (its : nat -> Item) (texts : nat -> string) :
  maxResults args = Some n ->
  0 < n ->
  renders_first args items (Z.to_nat n) its texts ->
  (forall fuel, (Z.to_nat n <= fuel)%nat ->
     for_loop fuel args items O w0
     = Some (Returned ReachedMax,
             logger_info ("Exiting after " +:+ pretty n +:+ " results")
                         (print_all (map texts (seq 0 (Z.to_nat n))) w0)))
  /\ stdout (logger_info ("Exiting after " +:+ pretty n +:+ " results")
                         (print_all (map texts (seq 0 (Z.to_nat n))) w0))
     = stdout w0 ++ map texts (seq 0 (Z.to_nat n))
  /\ (forall i item w,
        older_than_since args item = Ok true ->
        exists w', loop_body args i item w = (Returned (Break ReachedOlder), w')
                   /\ stdout w' = stdout w)
  /\ (forall i item w text,
        older_than_since args item = Ok false ->
        render args item = Ok text ->
        n <= i ->
        loop_body args i item w
        = (Returned (Break ReachedMax),
           logger_info ("Exiting after " +:+ pretty i +:+ " results") (print text w))).
Proof.
  intros Hn Hpos Hfirst. repeat split.
  - intros fuel Hfuel.
    destruct (Z.to_nat n) as [|m] eqn:Hm; [lia|].
    assert (Hlast : (m < S m)%nat) by lia.
    pose proof (pulled_below_cap args items n w0 its texts Hn Hpos) as Hp.
    rewrite Hm in Hp. specialize (Hp Hfirst m Hlast).
    destruct (Hfirst m Hlast) as [Hitem [Hold Hrender]].
    replace fuel with (m + S (fuel - S m))%nat by lia.
    rewrite (for_loop_pulled _ _ _ _ _ Hp). simpl for_loop. rewrite Hitem.
    unfold loop_body. rewrite Hold, Hrender, (reached_max_iff args n _ Hn Hpos).
    replace (Z.of_nat m + 1) with n by lia.
    rewrite Z.leb_refl.
    rewrite seq_S, map_app. cbn [map]. rewrite print_all_snoc. reflexivity.
  - rewrite stdout_logger_info, stdout_print_all. reflexivity.
  - intros i item w Hold. unfold loop_body. rewrite Hold.
    eexists. split; [reflexivity|apply stdout_logger_info].
  - intros i item w text Hold Hrender Hle. unfold loop_body.
    rewrite Hold, Hrender, (reached_max_iff args n _ Hn Hpos).
    destruct (n <=? i) eqn:E; [reflexivity|apply Z.leb_gt in E; lia].
Qed.

(** The witness of C2: [maxResults] 2 and no [since]; the first two of
    five items are printed. *)
Lemma max_2_renders_two :
  for_loop 2 max_2 five_items O (setup_logging 1 world0)
  = Some (Returned ReachedMax,
          mkWorld ["5"; "4"] [(INFO, "Exiting after 2 results")] INFO ∅ []).
Proof.
  refine (proj1 (max_results_includes_last max_2 five_items 2 (setup_logging 1 world0)
                   (fun j => numbered_item (5 - Z.of_nat j))
                   (fun j => pretty (5 - Z.of_nat j)) eq_refl _ _) 2%nat _).
  - lia.
  - intros j Hj. destruct j as [|[|j]]; [repeat split..|simpl in Hj; lia].
  - simpl. lia.
Defined.

(** More fuel does not change a run that has ended. *)
Lemma for_loop_more_fuel (args : Namespace) (items : Scraper) (fuel : nat) :
  forall (k : nat) (w : World) (r : Outcome Exit * World) (extra : nat),
    for_loop fuel args items k w = Some r ->
    for_loop (fuel + extra) args items k w = Some r.
Proof.
  induction fuel as [|fuel IH]; intros k w r extra Hrun; [discriminate|].
  simpl in *. destruct (items k) as [item| |e]; [|exact Hrun..].
  destruct (loop_body args (Z.of_nat k + 1) item w) as [[[|why]|lineno e] w'];
    [apply IH|..]; exact Hrun.
Qed.

(** On a sequence that ends the loop ends: one pull more than the sequence
    has items is enough. *)
Lemma for_loop_ends_on_lists (args : Namespace) (l : list Item) (n : nat) :
  forall (k : nat) (w : World),
    (length l <= k + n)%nat ->
    exists r, for_loop (S n) args (Reference.items_of_list l) k w = Some r.
Proof.
  induction n as [|n IH]; intros k w Hlen; simpl; unfold Reference.items_of_list at 1.
  - rewrite (proj2 (lookup_ge_None l k)) by lia. eexists. reflexivity.
  - destruct (l !! k) as [item|] eqn:Hk; [|eexists; reflexivity].
    destruct (loop_body args (Z.of_nat k + 1) item w) as [[[|why]|lineno e] w'];
      [|eexists; reflexivity..].
    apply IH. lia.
Qed.

(** The whole of [main] on sample command lines. *)
Example main_with_since :
  @main cpython sample_env 10 sample_classes ["-v"; "--since"; "3"; "twitter-user"] world0
  = Some (Ok ReachedOlder,
          mkWorld ["5"; "4"; "3"]
                  [(INFO, "Exiting due to reaching older results than 1970-01-01 00:00:03+00:00")]
                  INFO ∅
                  [Class "TwitterUserScraper" (Some "twitter-user") []]).
Proof. vm_compute. reflexivity. Qed.

Example main_with_format_and_cap :
  @main cpython sample_env 10 sample_classes ["-f"; "item "; "-n"; "2"; "gab"] world0
  = Some (Ok ReachedMax,
          mkWorld ["item 5"; "item 4"] [] WARNING ∅ [Class "GabScraper" (Some "gab") []]).
Proof. vm_compute. reflexivity. Qed.

Example main_to_exhaustion :
  @main cpython sample_env 10 sample_classes ["-v"; "gab"] world0
  = Some (Ok Exhausted,
          mkWorld ["5"; "4"; "3"; "2"; "1"] [(INFO, "Done, found 5 results")] INFO ∅
                  [Class "GabScraper" (Some "gab") []]).
Proof. vm_compute. reflexivity. Qed.

Lemma for_loop_max_zero (fuel : nat) :
  forall (args : Namespace) (items : Scraper) (k : nat) (w : World),
    for_loop fuel (with_maxResults (Some 0) args) items k w
    = for_loop fuel (with_maxResults None args) items k w.
Proof.
  induction fuel as [|fuel IH]; intros args items k w; [reflexivity|].
  simpl. destruct (items k) as [item| |e]; [|reflexivity..].
  change (loop_body (with_maxResults (Some 0) args) (Z.of_nat k + 1) item w)
    with (loop_body (with_maxResults None args) (Z.of_nat k + 1) item w).
  destruct (loop_body (with_maxResults None args) (Z.of_nat k + 1) item w)
    as [[[|why]|lineno e] w']; [apply IH|reflexivity..].
Qed.

(** C10, as amended. [maxResults] 0 is no cap at all: the loop does, pull
    for pull, what it does with [maxResults] unset. With a negative
    [maxResults], when the first pull yields an item that [since] does not
    cut off and that renders, the loop prints this item and ends by the
    [break] of line 121. *)
Theorem max_results_zero_or_negative (args : Namespace) (items : Scraper) (w : World) :
  (forall fuel k,
     for_loop fuel (with_maxResults (Some 0) args) items k w
     = for_loop fuel (with_maxResults None args) items k w)
  /\ (forall n item text fuel,
        n < 0 ->
        items O = Yield item ->
        older_than_since args item = Ok false ->
        render args item = Ok text ->
        for_loop (S fuel) (with_maxResults (Some n) args) items O w
        = Some (Returned ReachedMax, logger_info "Exiting after 1 results" (print text w))).
Proof.
  split; [intros fuel k; apply for_loop_max_zero|].
  intros n item text fuel Hneg Hitem Hold Hrender.
  simpl. rewrite Hitem. unfold loop_body.
  change (older_than_since (with_maxResults (Some n) args) item)
    with (older_than_since args item).
  change (render (with_maxResults (Some n) args) item) with (render args item).
  rewrite Hold, Hrender. unfold reached_max. cbn [maxResults with_maxResults].
  change (Z.of_nat 0 + 1) with 1.
  destruct (n =? 0) eqn:E0; [apply Z.eqb_eq in E0; lia|].
  destruct (n <=? 1) eqn:E1; [reflexivity|apply Z.leb_gt in E1; lia].
Qed.

(** The witness of the amended C10: [-n -1] and no [since]. *)
Lemma negative_max_renders_first :
  for_loop 1 (with_maxResults (Some (-1)) max_2) five_items O (setup_logging 1 world0)
  = Some (Returned ReachedMax,
          mkWorld ["5"] [(INFO, "Exiting after 1 results")] INFO ∅ []).
Proof.
  refine (proj2 (max_results_zero_or_negative max_2 five_items (setup_logging 1 world0))
                (-1) (numbered_item 5) "5" O _ eq_refl eq_refl eq_refl).
  lia.
Defined.

(** The counterexample of C10: a negative [maxResults], a sequence that is
    not empty, and nothing is printed: [since] cuts the first item off, and
    the loop ends by the [break] of line 114, not by the cap. *)
Lemma negative_max_can_render_nothing :
  Reference.items_of_list [numbered_item 2; numbered_item 1] O = Yield (numbered_item 2)
  /\ for_loop 3 (with_maxResults (Some (-1)) since_3)
              (Reference.items_of_list [numbered_item 2; numbered_item 1]) O
              (setup_logging 1 world0)
     = Some (Returned ReachedOlder,
             mkWorld []
                     [(INFO, "Exiting due to reaching older results than 1970-01-01 00:00:03+00:00")]
                     INFO ∅ []).
Proof. split; [reflexivity|vm_compute; reflexivity]. Qed.

(** ** Crash diagnostics *)

Lemma append_cons (c : ascii) (s t : string) : String c s +:+ t = String c (s +:+ t).
Proof. reflexivity. Qed.

Lemma append_nil_r (s : string) : s +:+ "" = s.
Proof.
  induction s as [|c s IH]; [reflexivity|]. rewrite append_cons, IH. reflexivity.
Qed.

Lemma append_assoc (a b c : string) : (a +:+ b) +:+ c = a +:+ (b +:+ c).
Proof.
  induction a as [|x a IH]; [reflexivity|]. rewrite !append_cons, IH. reflexivity.
Qed.

(** An exception is not its own [__context__]. *)
Lemma none_has_no_name_fresh (e : Exc) : none_has_no_name e <> e.
Proof.
  intros Heq. apply (f_equal exc_depth) in Heq. simpl in Heq. lia.
Qed.

(** When the module of every frame is known, the loop of lines 22-33 ends
    and has written the blocks of the frames it keeps. *)
Lemma dump_frames_known (e : Exc) (frames : list FrameRecord) :
  forall written,
    Forall (fun fr => is_Some (fr_module fr)) frames ->
    dump_frames e frames written
    = (Ok tt, written +:+ blocks (List.filter frame_owned frames)).
Proof.
  induction frames as [|fr frames IH]; intros written Hall; simpl.
  - rewrite append_nil_r. reflexivity.
  - inversion Hall as [|? ? [module_name Hm] Hrest]; subst.
    unfold frame_owned at 1. rewrite Hm.
    destruct (owned module_name).
    + rewrite (IH _ Hrest). simpl. rewrite append_assoc. reflexivity.
    + apply (IH _ Hrest).
Qed.

(** At the first frame whose module is not known the loop raises
    [AttributeError]; the blocks written before stay in the file. *)
Lemma dump_frames_unknown (e : Exc) (before : list FrameRecord) (fr : FrameRecord)
    (after : list FrameRecord) :
  forall written,
    Forall (fun fr' => is_Some (fr_module fr')) before ->
    fr_module fr = None ->
    dump_frames e (before ++ fr :: after) written
    = (Raise (none_has_no_name e), written +:+ blocks (List.filter frame_owned before)).
Proof.
  induction before as [|x before IH]; intros written Hall Hnone; simpl.
  - rewrite Hnone, append_nil_r. reflexivity.
  - inversion Hall as [|? ? [module_name Hm] Hrest]; subst.
    unfold frame_owned at 1. rewrite Hm.
    destruct (owned module_name).
    + rewrite (IH _ Hrest Hnone). simpl. rewrite append_assoc. reflexivity.
    + apply (IH _ Hrest Hnone).
Qed.

Lemma filter_all_owned (frames : list FrameRecord) :
  Forall (fun fr => frame_owned fr = true) frames ->
  List.filter frame_owned frames = frames
  /\ Forall (fun fr => is_Some (fr_module fr)) frames.
Proof.
  induction 1 as [|fr frames Hfr _ [IH1 IH2]]; [split; [reflexivity|constructor]|].
  simpl. rewrite Hfr, IH1. split; [reflexivity|]. constructor; [|exact IH2].
  unfold frame_owned in Hfr. destruct (fr_module fr); [eexists; reflexivity|discriminate].
Qed.

Section Diagnostics.
Context `{Environment}.

(** [except Exception] does not catch what is no [Exception]: it passes
    the context manager, and nothing is written. *)
Lemma base_exception_passes {A : Type} (lineno : Z) (e : Exc) (w : World) :
  is_Exception (exc_class e) = false ->
  @_dump_locals_on_exception _ A (Raised lineno e, w) = (Raise e, w).
Proof. intros Hbase. unfold _dump_locals_on_exception. rewrite Hbase. reflexivity. Qed.

(** A body that ends without an exception ends the [with] statement the
    same way. *)
Lemma normal_exit_passes {A : Type} (a : A) (w : World) :
  _dump_locals_on_exception (Returned a, w) = (Ok a, w).
Proof. reflexivity. Qed.

(** C3. Let an [Exception] leave the body of the [with] statement. When
    [inspect.trace()] has fewer than 3 records, nothing is written and the
    world is as the body left it. When it has 3 or more and every frame
    below [main] belongs to a module of [snscrape], exactly one file is
    added to the temporary directory, under a name the directory did not
    hold, which starts with ['snscrape_locals_']; the file holds the block
    of each of these frames, so the [repr] of the locals of at least one
    frame. In both cases the exception that leaves the context manager is
    the one that entered it. *)
Theorem diagnostics_capture_and_reraise {A : Type} (lineno : Z) (e : Exc) (w : World) :
  is_Exception (exc_class e) = true ->
  ((length (inspect_trace lineno e) < 3)%nat ->
   @_dump_locals_on_exception _ A (Raised lineno e, w) = (Raise e, w))
  /\ ((3 <= length (inspect_trace lineno e))%nat ->
      Forall (fun fr => frame_owned fr = true) (drop 2 (inspect_trace lineno e)) ->
      exists fp_name content w',
        @_dump_locals_on_exception _ A (Raised lineno e, w) = (Raise e, w')
        /\ tmp_files w !! fp_name = None
        /\ startswith fp_name "snscrape_locals_" = true
        /\ tmp_files w' = <[fp_name := content]> (tmp_files w)
        /\ stdout w' = stdout w
        /\ content = blocks (drop 2 (inspect_trace lineno e))
        /\ exists fr before after,
             fr ∈ drop 2 (inspect_trace lineno e)
             /\ content = before +:+ repr_locals (fr_locals fr) +:+ after).
Proof.
  intros Hexc. unfold _dump_locals_on_exception, dump_locals. rewrite Hexc. split.
  - intros Hshort.
    destruct (3 <=? Z.of_nat (length (inspect_trace lineno e))) eqn:E;
      [apply Z.leb_le in E; lia|reflexivity].
  - intros Hdeep Hown.
    destruct (3 <=? Z.of_nat (length (inspect_trace lineno e))) eqn:E;
      [|apply Z.leb_gt in E; lia].
    destruct (filter_all_owned _ Hown) as [Hkeep Hknown].
    rewrite (dump_frames_known e _ "" Hknown), Hkeep.
    exists (mkstemp_name "snscrape_locals_" (tmp_files w)).
    exists (blocks (drop 2 (inspect_trace lineno e))).
    eexists. split; [reflexivity|].
    split; [apply mkstemp_fresh|]. split; [apply mkstemp_prefix|].
    split; [unfold logger_fatal, logger_log;
            destruct (root_level _ <=? CRITICAL); reflexivity|].
    split; [unfold logger_fatal, logger_log;
            destruct (root_level _ <=? CRITICAL); reflexivity|].
    split; [reflexivity|].
    unfold inspect_trace in *. simpl in *.
    destruct (exc_tb e) as [|fr rest]; [simpl in Hdeep; lia|].
    exists fr, (block_header fr), (block_footer fr +:+ blocks rest).
    split; [constructor|].
    simpl. unfold frame_block. rewrite !append_assoc. reflexivity.
Qed.

(** The handler does not end when a frame below [main] has no known
    module: it raises [AttributeError] in place of the exception it was
    handling, after the file has been created. *)
Lemma handler_raises_on_unknown_module {A : Type} (lineno : Z) (e : Exc) (w : World)
    (before : list FrameRecord) (fr : FrameRecord) (after : list FrameRecord) :
  is_Exception (exc_class e) = true ->
  exc_tb e = before ++ fr :: after ->
  Forall (fun fr' => is_Some (fr_module fr')) before ->
  fr_module fr = None ->
  @_dump_locals_on_exception _ A (Raised lineno e, w)
  = (Raise (none_has_no_name e),
     write_file (mkstemp_name "snscrape_locals_" (tmp_files w))
                (blocks (List.filter frame_owned before)) w).
Proof.
  intros Hexc Htb Hknown Hnone.
  unfold _dump_locals_on_exception, dump_locals. rewrite Hexc.
  change (drop 2 (inspect_trace lineno e)) with (exc_tb e).
  change (length (inspect_trace lineno e)) with (S (S (length (exc_tb e)))).
  rewrite Htb, (dump_frames_unknown e before fr after "" Hknown Hnone).
  destruct (3 <=? Z.of_nat (S (S (length (before ++ fr :: after))))) eqn:E;
    [reflexivity|].
  apply Z.leb_gt in E. rewrite length_app in E. simpl in E. lia.
Qed.

End Diagnostics.

(** The witness of C3: both frames below [main] belong to [snscrape]. *)
Lemma scraping_failure_is_dumped :
  exists fp_name content w',
    @_dump_locals_on_exception (reference (fun _ _ => Ok (Reference.items_of_list []))) Exit
        (Raised 111 scraping_failed, world0)
    = (Raise scraping_failed, w')
    /\ tmp_files world0 !! fp_name = None
    /\ startswith fp_name "snscrape_locals_" = true
    /\ tmp_files w' = <[fp_name := content]> (tmp_files world0)
    /\ stdout w' = stdout world0
    /\ content = blocks [get_items_frame; request_frame]
    /\ exists fr before after,
         fr ∈ [get_items_frame; request_frame]
         /\ content = before +:+ repr_locals (fr_locals fr) +:+ after.
Proof.
  apply (proj2 (@diagnostics_capture_and_reraise
                  (reference (fun _ _ => Ok (Reference.items_of_list []))) Exit
                  111 scraping_failed world0 eq_refl)).
  - simpl. lia.
  - repeat constructor.
Defined.

(** The same run, computed: the file and the record of line 34. *)
Example scraping_failure_artifact :
  @_dump_locals_on_exception (reference (fun _ _ => Ok (Reference.items_of_list []))) Exit
      (Raised 111 scraping_failed, world0)
  = (Raise scraping_failed,
     mkWorld [] [(CRITICAL, "Local variables logged to snscrape_locals_")] WARNING
             {[ "snscrape_locals_" := frame_block get_items_frame +:+ frame_block request_frame ]}
             []).
Proof. vm_compute. reflexivity. Qed.

(** A failure raised by the body of the loop itself, with no frame below
    [main]: nothing is written. *)
Example shallow_failure_is_not_dumped :
  @_dump_locals_on_exception (reference (fun _ _ => Ok (Reference.items_of_list []))) Exit
      (Raised 116 (mkExc KeyError "'title'" [] None), world0)
  = (Raise (mkExc KeyError "'title'" [] None), world0).
Proof. reflexivity. Qed.

(** C9, at its failing input: the last frame of the traceback has no
    known module. The handler raises [AttributeError], which is not the
    exception it was handling; the file holds the one block written before,
    and line 34 is not reached. *)
Theorem handler_crashes_on_unknown_module :
  @_dump_locals_on_exception (reference (fun _ _ => Ok (Reference.items_of_list []))) Exit
      (Raised 111 failed_in_generated_code, world0)
  = (Raise (none_has_no_name failed_in_generated_code),
     mkWorld [] [] WARNING {[ "snscrape_locals_" := frame_block get_items_frame ]} [])
  /\ exc_class (none_has_no_name failed_in_generated_code) = AttributeError
  /\ none_has_no_name failed_in_generated_code <> failed_in_generated_code.
Proof.
  split; [|split; [reflexivity|apply none_has_no_name_fresh]].
  rewrite (handler_raises_on_unknown_module 111 failed_in_generated_code world0
             [get_items_frame] generated_frame [] eq_refl eq_refl);
    [vm_compute; reflexivity|repeat constructor; eexists; reflexivity|reflexivity].
Qed.

(** ** Further properties of the datetime parser *)

(** X1. The parser raises only when none of the four layouts parses the
    string, and what it raises is the [ArgumentTypeError] of line 55 (when
    [int] fails or [fromtimestamp] raises [ValueError]) or an exception of
    [fromtimestamp] that is no [ValueError]: a [ValueError] never leaves
    the parser. *)
Theorem parse_datetime_arg_raises_only `{PyDatetime} (arg : string) (e : Exc) :
  parse_datetime_arg arg = Raise e ->
  (forall layout, layout ∈ formats -> strptime arg layout = None)
  /\ is_ValueError (exc_class e) = false
  /\ ((e = cannot_parse arg
       /\ (py_int arg = None
           \/ exists n e0, py_int arg = Some n /\ fromtimestamp_utc n = Raise e0
                           /\ is_ValueError (exc_class e0) = true))
      \/ (exists n, py_int arg = Some n /\ fromtimestamp_utc n = Raise e)).
Proof.
  unfold parse_datetime_arg.
  destruct (try_formats arg formats) as [d|] eqn:Hf; [discriminate|].
  intros Hr. split; [apply try_formats_none; exact Hf|].
  unfold try_unix_timestamp in Hr.
  destruct (py_int arg) as [n|] eqn:Hn.
  - destruct (fromtimestamp_utc n) as [d|e0] eqn:Ht; [discriminate|].
    destruct (is_ValueError (exc_class e0)) eqn:Hv.
    + injection Hr as <-. split; [reflexivity|]. left. split; [reflexivity|].
      right. exists n, e0. repeat split; assumption.
    + injection Hr as <-. split; [exact Hv|]. right. exists n. split; [reflexivity|exact Ht].
  - injection Hr as <-. split; [reflexivity|]. left. split; [reflexivity|]. left. reflexivity.
Qed.

(** The witness of X1. *)
Lemma next_week_cannot_be_parsed :
  (forall layout, layout ∈ formats -> @strptime cpython "next week" layout = None)
  /\ is_ValueError (exc_class (cannot_parse "next week")) = false
  /\ ((cannot_parse "next week" = cannot_parse "next week"
       /\ (@py_int cpython "next week" = None
           \/ exists n e0, @py_int cpython "next week" = Some n
                           /\ @fromtimestamp_utc cpython n = Raise e0
                           /\ is_ValueError (exc_class e0) = true))
      \/ (exists n, @py_int cpython "next week" = Some n
                    /\ @fromtimestamp_utc cpython n = Raise (cannot_parse "next week"))).
Proof.
  apply (@parse_datetime_arg_raises_only cpython "next week" (cannot_parse "next week")).
  vm_compute. reflexivity.
Defined.

(** X2. Every datetime the parser returns has a [tzinfo], provided
    [fromtimestamp], which is called with [datetime.timezone.utc], returns
    datetimes that have one: [args.since] is never naive. *)
Theorem parsed_datetime_is_aware `{PyDatetime} (arg : string) (d : datetime) :
  (forall n d', fromtimestamp_utc n = Ok d' -> is_Some (tzinfo d')) ->
  parse_datetime_arg arg = Ok d ->
  is_Some (tzinfo d).
Proof.
  intros Haware Hparse.
  destruct (tzinfo d) as [tz|] eqn:E; [eexists; reflexivity|].
  destruct (parse_datetime_arg_aware arg d) as []; [|exact Hparse|exact E].
  intros n d' Hd' Hnone. destruct (Haware n d' Hd') as [tz Htz]. congruence.
Qed.

(** The reference [fromtimestamp] returns datetimes in UTC. *)
Lemma cpython_fromtimestamp_aware (n : Z) (d : datetime) :
  CPython.fromtimestamp_utc n = Ok d -> tzinfo d = Some utc.
Proof.
  unfold CPython.fromtimestamp_utc.
  destruct ((n <? - 2 ^ 63) || (2 ^ 63 <=? n)); [discriminate|].
  destruct ((n <? -67768040609740800) || (67768036191676799 <? n)); [discriminate|].
  destruct ((n <? -62135596800) || (253402300799 <? n)); [discriminate|].
  destruct (CPython.ord2ymd (n / 86400 + epoch_ordinal)) as [[y m] dd].
  intros [= <-]. reflexivity.
Qed.

(** The witness of X2: a date and time without offset. *)
Lemma local_time_is_read_as_utc :
  @parse_datetime_arg cpython "2023-01-02 03:04:05"
  = Ok (mkDatetime 2023 1 2 3 4 5 0 (Some utc))
  /\ is_Some (tzinfo (mkDatetime 2023 1 2 3 4 5 0 (Some utc))).
Proof.
  split; [vm_compute; reflexivity|].
  apply (@parsed_datetime_is_aware cpython "2023-01-02 03:04:05").
  - intros n d' Hd'. rewrite (cpython_fromtimestamp_aware n d' Hd'). eexists. reflexivity.
  - vm_compute. reflexivity.
Defined.

(** ** Further properties of the execution loop *)

(** What a run that ends has done: it printed the texts of a prefix of the
    sequence and, when it ended without an exception, it ended for the
    reason its exit names. *)
Lemma for_loop_run (args : Namespace) (items : Scraper) (fuel : nat) :
  forall (k : nat) (w w' : World) (r : Outcome Exit),
    for_loop fuel args items k w = Some (r, w') ->
    exists l, rendered_prefix args items k l
              /\ stdout w' = stdout w ++ map snd l
              /\ match r with
                 | Returned why => exit_justified args items (k + length l) why
                 | Raised _ _ => True
                 end.
Proof.
  induction fuel as [|fuel IH]; intros k w w' r Hrun; [discriminate|].
  simpl in Hrun. destruct (items k) as [item| |e] eqn:Hk.
  - destruct (loop_body_cases args (Z.of_nat k + 1) item w)
      as [[e [Hold Hb]]|[[Hold Hb]|[Hold [[e [Hr Hb]]|[text [Hr Hb]]]]]];
      rewrite Hb in Hrun.
    + injection Hrun as <- <-. exists []. simpl. rewrite app_nil_r.
      split; [intros j it text Hj; discriminate|]. split; reflexivity.
    + injection Hrun as <- <-. exists []. simpl.
      rewrite stdout_logger_info, app_nil_r, Nat.add_0_r.
      split; [intros j it text Hj; discriminate|]. split; [reflexivity|].
      exists item. split; assumption.
    + injection Hrun as <- <-. exists []. simpl. rewrite app_nil_r.
      split; [intros j it text Hj; discriminate|]. split; reflexivity.
    + destruct (reached_max args (Z.of_nat k + 1)) eqn:Hmax.
      * injection Hrun as <- <-. exists [(item, text)]. simpl.
        rewrite stdout_logger_info.
        split; [|split; [reflexivity|]].
        -- intros j it t Hj. destruct j as [|j]; [|discriminate].
           injection Hj as <- <-. rewrite Nat.add_0_r. repeat split; assumption.
        -- split; [lia|]. replace (Z.of_nat (k + 1)) with (Z.of_nat k + 1) by lia.
           exact Hmax.
      * destruct (IH _ _ _ _ Hrun) as [l [Hl [Hout Hexit]]].
        exists ((item, text) :: l). simpl. split; [|split].
        -- intros j it t Hj. destruct j as [|j].
           ++ injection Hj as <- <-. rewrite Nat.add_0_r. repeat split; assumption.
           ++ replace (k + S j)%nat with (S k + j)%nat by lia. apply (Hl j it t Hj).
        -- rewrite Hout. simpl. rewrite <- app_assoc. reflexivity.
        -- replace (k + S (length l))%nat with (S k + length l)%nat in * by lia.
           exact Hexit.
  - injection Hrun as <- <-. exists []. simpl.
    rewrite stdout_logger_info, app_nil_r, Nat.add_0_r.
    split; [intros j it text Hj; discriminate|]. split; [reflexivity|exact Hk].
  - injection Hrun as <- <-. exists []. simpl. rewrite app_nil_r.
    split; [intros j it text Hj; discriminate|]. split; reflexivity.
Qed.

(** X3. Whatever the options and however the run ends (a [break], the end
    of the sequence, an exception), the lines it has printed are the texts
    of the first items of the sequence, in order and with none left out,
    and none of these items is older than [since]. *)
Theorem loop_renders_a_prefix
    (args : Namespace) (items : Scraper) (fuel : nat) (w w' : World) (r : Outcome Exit) :
  for_loop fuel args items O w = Some (r, w') ->
  exists l, rendered_prefix args items O l /\ stdout w' = stdout w ++ map snd l.
Proof.
  intros Hrun. destruct (for_loop_run args items fuel O w w' r Hrun) as [l [Hl [Hout _]]].
  exists l. split; assumption.
Qed.

(** The witness of X3. *)
Lemma run_since_3_renders_a_prefix :
  exists l, rendered_prefix since_3 five_items O l
            /\ stdout (mkWorld ["5"; "4"; "3"] [] WARNING ∅ []) = stdout world0 ++ map snd l.
Proof.
  apply (loop_renders_a_prefix since_3 five_items 4 world0
           (mkWorld ["5"; "4"; "3"] [] WARNING ∅ []) (Returned ReachedOlder)).
  vm_compute. reflexivity.
Defined.

(** X4. A run of the loop that ends without an exception ends for the
    reason the sequence gives: with [m] lines printed, it ends by the
    [else] clause of line 122 only when pull [m] ends the sequence, by the
    [break] of line 114 only when pull [m] yields an item older than
    [since], and by the [break] of line 121 only when [m] is at least 1
    and reaches [maxResults]. *)
Theorem loop_exit_is_justified
    (args : Namespace) (items : Scraper) (fuel : nat) (w w' : World) (why : Exit) :
  for_loop fuel args items O w = Some (Returned why, w') ->
  exists m, length (stdout w') = (length (stdout w) + m)%nat
            /\ exit_justified args items m why.
Proof.
  intros Hrun.
  destruct (for_loop_run args items fuel O w w' _ Hrun) as [l [_ [Hout Hexit]]].
  exists (length l). split; [|exact Hexit].
  rewrite Hout, length_app, length_map. reflexivity.
Qed.

(** The witness of X4. *)
Lemma run_since_3_exit_is_justified :
  exists m, length (stdout (mkWorld ["5"; "4"; "3"] [] WARNING ∅ []))
            = (length (stdout world0) + m)%nat
            /\ exit_justified since_3 five_items m ReachedOlder.
Proof.
  apply (loop_exit_is_justified since_3 five_items 4 world0
           (mkWorld ["5"; "4"; "3"] [] WARNING ∅ []) ReachedOlder).
  vm_compute. reflexivity.
Defined.

Lemma max_bounds_output_from (args : Namespace) (items : Scraper) (n : Z) (fuel : nat) :
  maxResults args = Some n -> 0 < n ->
  forall (k : nat) (w w' : World) (r : Outcome Exit),
    Z.of_nat k < n ->
    for_loop fuel args items k w = Some (r, w') ->
    (length (stdout w') <= length (stdout w) + (Z.to_nat n - k))%nat.
Proof.
  intros Hn Hpos. induction fuel as [|fuel IH]; intros k w w' r Hk Hrun; [discriminate|].
  simpl in Hrun. destruct (items k) as [item| |e].
  - destruct (loop_body_cases args (Z.of_nat k + 1) item w)
      as [[e [_ Hb]]|[[_ Hb]|[_ [[e [_ Hb]]|[text [_ Hb]]]]]];
      rewrite Hb in Hrun.
    + injection Hrun as _ <-. lia.
    + injection Hrun as _ <-. rewrite stdout_logger_info. lia.
    + injection Hrun as _ <-. lia.
    + rewrite (reached_max_iff args n _ Hn Hpos) in Hrun.
      destruct (n <=? Z.of_nat k + 1) eqn:E.
      * injection Hrun as _ <-. rewrite stdout_logger_info. simpl.
        rewrite length_app. simpl. lia.
      * apply Z.leb_gt in E.
        pose proof (IH (S k) (print text w) w' r ltac:(lia) Hrun) as Hle.
        simpl in Hle. rewrite length_app in Hle. simpl in Hle. lia.
  - injection Hrun as _ <-. rewrite stdout_logger_info. lia.
  - injection Hrun as _ <-. lia.
Qed.

(** X5. With [maxResults] a positive [n], no run prints more than [n]
    lines, whatever the sequence, [since] and the template, and however
    the run ends. *)
Theorem max_results_bounds_output
    (args : Namespace) (items : Scraper) (n : Z) (fuel : nat) (w w' : World)
    (r : Outcome Exit) :
  maxResults args = Some n ->
  0 < n ->
  for_loop fuel args items O w = Some (r, w') ->
  (length (stdout w') <= length (stdout w) + Z.to_nat n)%nat.
Proof.
  intros Hn Hpos Hrun.
  pose proof (max_bounds_output_from args items n fuel Hn Hpos O w w' r ltac:(lia) Hrun).
  lia.
Qed.

(** The witness of X5. *)
Lemma run_max_2_prints_at_most_two :
  (length (stdout (mkWorld ["5"; "4"] [] WARNING ∅ [])) <= length (stdout world0) + Z.to_nat 2)%nat.
Proof.
  apply (max_results_bounds_output max_2 five_items 2 7 world0
           (mkWorld ["5"; "4"] [] WARNING ∅ []) (Returned ReachedMax) eq_refl).
  - lia.
  - vm_compute. reflexivity.
Defined.

Lemma max_bounds_pulls_from (args : Namespace) (items : Scraper) (n : Z) :
  maxResults args = Some n -> 0 < n ->
  forall (fuel k : nat) (w : World),
    (0 < fuel)%nat -> n <= Z.of_nat (k + fuel) ->
    exists r, for_loop fuel args items k w = Some r.
Proof.
  intros Hn Hpos. induction fuel as [|fuel IH]; intros k w Hfuel Hle; [lia|].
  simpl. destruct (items k) as [item| |e]; [|eexists; reflexivity..].
  destruct (loop_body_cases args (Z.of_nat k + 1) item w)
    as [[e [_ Hb]]|[[_ Hb]|[_ [[e [_ Hb]]|[text [_ Hb]]]]]];
    rewrite Hb; [eexists; reflexivity..|].
  rewrite (reached_max_iff args n _ Hn Hpos).
  destruct (n <=? Z.of_nat k + 1) eqn:E; [eexists; reflexivity|].
  apply Z.leb_gt in E. apply IH; lia.
Qed.

(** X6. With [maxResults] a positive [n] the loop ends within [n] pulls on
    every sequence, an endless one included. *)
Theorem max_results_bounds_pulls
    (args : Namespace) (items : Scraper) (n : Z) (w : World) :
  maxResults args = Some n ->
  0 < n ->
  exists r, for_loop (Z.to_nat n) args items O w = Some r.
Proof.
  intros Hn Hpos. apply (max_bounds_pulls_from args items n Hn Hpos); lia.
Qed.

(** The witness of X6: a sequence that never ends. *)
Lemma endless_sequence_is_capped :
  exists r, for_loop (Z.to_nat 2) max_2 (fun _ => Yield (numbered_item 7)) O world0 = Some r.
Proof.
  apply (max_results_bounds_pulls max_2 (fun _ => Yield (numbered_item 7)) 2 world0 eq_refl).
  lia.
Defined.

Lemma pulled_uncapped (args : Namespace) (items : Scraper) (w0 : World) (m : nat)
    (its : nat -> Item) (texts : nat -> string) :
  renders_first args items m its texts ->
  (forall j, (j < m)%nat -> reached_max args (Z.of_nat j + 1) = false) ->
  forall j, (j <= m)%nat ->
    pulled args items w0 j (print_all (map texts (seq 0 j)) w0).
Proof.
  intros Hfirst Hcap j. induction j as [|j IH]; intros Hj; [constructor|].
  destruct (Hfirst j) as [Hitem [Hold Hrender]]; [lia|].
  rewrite seq_S, map_app. cbn [map]. rewrite print_all_snoc. simpl.
  apply (pulled_next _ _ _ j (print_all (map texts (seq 0 j)) w0) (its j));
    [apply IH; lia|exact Hitem|].
  unfold loop_body. rewrite Hold, Hrender, (Hcap j) by lia. reflexivity.
Qed.

(** X7. When the sequence ends after [m] items that all render, none cut
    off and the cap not reached, the loop prints the [m] texts and ends by
    the [else] clause of line 122; the count in its message is [m], the
    number of lines printed, and 0 for a sequence that yields nothing. *)
Theorem exhausted_reports_count
    (args : Namespace) (items : Scraper) (w0 : World) (m : nat)
    (its : nat -> Item) (texts : nat -> string) :
  renders_first args items m its texts ->
  items m = StopIteration ->
  (forall j, (j < m)%nat -> reached_max args (Z.of_nat j + 1) = false) ->
  forall fuel, (m < fuel)%nat ->
    for_loop fuel args items O w0
    = Some (Returned Exhausted,
            logger_info ("Done, found " +:+ pretty (Z.of_nat m) +:+ " results")
                        (print_all (map texts (seq 0 m)) w0)).
Proof.
  intros Hfirst Hstop Hcap fuel Hfuel.
  pose proof (pulled_uncapped args items w0 m its texts Hfirst Hcap m (le_n m)) as Hp.
  replace fuel with (m + S (fuel - S m))%nat by lia.
  rewrite (for_loop_pulled _ _ _ _ _ Hp). simpl. rewrite Hstop. reflexivity.
Qed.

(** The witness of X7: a scraper that finds nothing, with [-v]. *)
Lemma empty_sequence_reports_zero :
  for_loop 1 max_2 (Reference.items_of_list []) O (setup_logging 1 world0)
  = Some (Returned Exhausted, mkWorld [] [(INFO, "Done, found 0 results")] INFO ∅ []).
Proof.
  refine (exhausted_reports_count max_2 (Reference.items_of_list [])
            (setup_logging 1 world0) O (fun _ => naive_item) (fun _ => "")
            _ eq_refl _ 1%nat _).
  - intros j Hj. lia.
  - intros j Hj. lia.
  - lia.
Defined.

(** What the loop leaves alone: the temporary directory, the scrapers
    constructed and the level of the root logger. *)
Lemma logger_log_frame (level : Z) (msg : string) (w : World) :
  tmp_files (logger_log level msg w) = tmp_files w
  /\ constructed (logger_log level msg w) = constructed w
  /\ root_level (logger_log level msg w) = root_level w.
Proof. unfold logger_log. destruct (root_level w <=? level); repeat split. Qed.

Lemma for_loop_frame (args : Namespace) (items : Scraper) (fuel : nat) :
  forall (k : nat) (w w' : World) (r : Outcome Exit),
    for_loop fuel args items k w = Some (r, w') ->
    tmp_files w' = tmp_files w
    /\ constructed w' = constructed w
    /\ root_level w' = root_level w.
Proof.
  induction fuel as [|fuel IH]; intros k w w' r Hrun; [discriminate|].
  simpl in Hrun. destruct (items k) as [item| |e].
  - destruct (loop_body_cases args (Z.of_nat k + 1) item w)
      as [[e [_ Hb]]|[[_ Hb]|[_ [[e [_ Hb]]|[text [_ Hb]]]]]];
      rewrite Hb in Hrun.
    + injection Hrun as _ <-. repeat split.
    + injection Hrun as _ <-. apply logger_log_frame.
    + injection Hrun as _ <-. repeat split.
    + destruct (reached_max args (Z.of_nat k + 1)).
      * injection Hrun as _ <-. apply (logger_log_frame INFO _ (print text w)).
      * apply (IH _ _ _ _ Hrun).
  - injection Hrun as _ <-. apply logger_log_frame.
  - injection Hrun as _ <-. repeat split.
Qed.

Lemma log_records_after_print (msg text : string) (w : World) :
  log_records (logger_info msg (print text w)) = log_records (logger_info msg w).
Proof.
  unfold logger_info, logger_log. simpl. destruct (root_level w <=? INFO); reflexivity.
Qed.

Lemma for_loop_log_records (args : Namespace) (items : Scraper) (fuel : nat) :
  forall (k : nat) (w w' : World) (r : Outcome Exit),
    for_loop fuel args items k w = Some (r, w') ->
    match r with
    | Returned _ =>
        exists msg, log_records w' = log_records (logger_info msg w)
    | Raised _ _ => log_records w' = log_records w
    end.
Proof.
  induction fuel as [|fuel IH]; intros k w w' r Hrun; [discriminate|].
  simpl in Hrun. destruct (items k) as [item| |e].
  - destruct (loop_body_cases args (Z.of_nat k + 1) item w)
      as [[e [_ Hb]]|[[_ Hb]|[_ [[e [_ Hb]]|[text [_ Hb]]]]]];
      rewrite Hb in Hrun.
    + injection Hrun as <- <-. reflexivity.
    + injection Hrun as <- <-. eexists. reflexivity.
    + injection Hrun as <- <-. reflexivity.
    + destruct (reached_max args (Z.of_nat k + 1)).
      * injection Hrun as <- <-. eexists. apply log_records_after_print.
      * pose proof (IH _ _ _ _ Hrun) as Hlog.
        destruct r as [why|lineno e]; [|exact Hlog].
        destruct Hlog as [msg Hlog]. exists msg.
        rewrite Hlog. apply log_records_after_print.
  - injection Hrun as <- <-. eexists. reflexivity.
  - injection Hrun as <- <-. reflexivity.
Qed.

(** X8. [parse_datetime_arg] gives [since] a [tzinfo]; an item whose date
    has none cannot be compared with it. When the loop pulls such an item
    with [since] set, line 112 raises [TypeError]; no frame lies below
    [main], so the handler of lines 18-35 writes no file and logs nothing,
    and the [TypeError] leaves the [with] statement after the items before
    have been printed. *)
Theorem naive_date_ends_the_run `{Environment}
    (args : Namespace) (items : Scraper) (w0 : World) (k : nat) (w : World)
    (item : Item) (s : datetime) (tz : timezone) :
  since args = Some s ->
  tzinfo s = Some tz ->
  pulled args items w0 k w ->
  items k = Yield item ->
  tzinfo (date item) = None ->
  forall fuel, (k < fuel)%nat ->
    _dump_locals_on_exception <$> for_loop fuel args items O w0
    = Some (Raise (type_error "can't compare offset-naive and offset-aware datetimes"), w).
Proof.
  intros Hsince Htz Hp Hitem Hnaive fuel Hfuel.
  replace fuel with (k + S (fuel - S k))%nat by lia.
  rewrite (for_loop_pulled _ _ _ _ _ Hp). simpl. rewrite Hitem.
  unfold loop_body, older_than_since, datetime_lt. rewrite Hsince, Hnaive, Htz.
  reflexivity.
Qed.

(** The witness of X8: the second item has a naive date. *)
Lemma naive_second_item_ends_the_run :
  @_dump_locals_on_exception sample_env Exit
    <$> for_loop 3 since_3 (Reference.items_of_list [numbered_item 5; naive_item]) O world0
  = Some (Raise (type_error "can't compare offset-naive and offset-aware datetimes"),
          print "5" world0).
Proof.
  refine (@naive_date_ends_the_run sample_env since_3
            (Reference.items_of_list [numbered_item 5; naive_item]) world0 1
            (print "5" world0) naive_item (epoch_second 3) utc
            eq_refl eq_refl _ eq_refl eq_refl 3%nat _).
  - apply (pulled_next _ _ _ O world0 (numbered_item 5));
      [constructor|reflexivity|vm_compute; reflexivity].
  - lia.
Defined.

(** X9. Without [-v] ([verbosity] at most 0, the root logger at a level
    above [INFO], as it is by default) a run of the loop emits no log
    record, however it ends. *)
Theorem quiet_run_logs_nothing
    (args : Namespace) (items : Scraper) (fuel : nat) (w w' : World) (r : Outcome Exit) :
  verbosity args <= 0 ->
  INFO < root_level w ->
  for_loop fuel args items O (setup_logging (verbosity args) w) = Some (r, w') ->
  log_records w' = log_records w.
Proof.
  intros Hv Hlevel Hrun. unfold setup_logging in Hrun.
  destruct (0 <? verbosity args) eqn:E; [apply Z.ltb_lt in E; lia|].
  pose proof (for_loop_log_records args items fuel O w w' r Hrun) as Hlog.
  assert (Hquiet : forall msg, log_records (logger_info msg w) = log_records w).
  { intros msg. unfold logger_info, logger_log.
    destruct (root_level w <=? INFO) eqn:E'; [apply Z.leb_le in E'; lia|reflexivity]. }
  destruct r as [why|lineno e]; [|exact Hlog].
  destruct Hlog as [msg Hlog]. rewrite Hlog. apply Hquiet.
Qed.

(** The witness of X9. *)
Lemma run_without_verbose_is_quiet :
  log_records (mkWorld ["5"; "4"; "3"; "2"; "1"] [] WARNING ∅ []) = log_records world0.
Proof.
  refine (quiet_run_logs_nothing
            (mkNamespace 0 3 None None None (Some "scraper") None []) five_items 6 world0
            (mkWorld ["5"; "4"; "3"; "2"; "1"] [] WARNING ∅ []) (Returned Exhausted) _ _ _).
  - simpl. lia.
  - vm_compute. reflexivity.
  - vm_compute. reflexivity.
Defined.

(** X10. With [-v] given at least once, a run of the loop that ends
    without an exception emits exactly one record, at level [INFO], and a
    run that ends with an exception emits none in the loop. *)
Theorem verbose_run_logs_one_record
    (args : Namespace) (items : Scraper) (fuel : nat) (w w' : World) (r : Outcome Exit) :
  0 < verbosity args ->
  for_loop fuel args items O (setup_logging (verbosity args) w) = Some (r, w') ->
  match r with
  | Returned _ => exists msg, log_records w' = log_records w ++ [(INFO, msg)]
  | Raised _ _ => log_records w' = log_records w
  end.
Proof.
  intros Hv Hrun.
  pose proof (for_loop_log_records args items fuel O _ w' r Hrun) as Hlog.
  assert (Hloud : forall msg, log_records (logger_info msg (setup_logging (verbosity args) w))
                              = log_records w ++ [(INFO, msg)]).
  { intros msg. unfold setup_logging.
    destruct (0 <? verbosity args) eqn:E; [|apply Z.ltb_ge in E; lia].
    unfold logger_info, logger_log. simpl.
    destruct (verbosity args =? 1); reflexivity. }
  assert (Hsame : log_records (setup_logging (verbosity args) w) = log_records w).
  { unfold setup_logging. destruct (0 <? verbosity args); reflexivity. }
  destruct r as [why|lineno e].
  - destruct Hlog as [msg Hlog]. exists msg. rewrite Hlog. apply Hloud.
  - rewrite Hlog. exact Hsame.
Qed.

(** The witness of X10. *)
Lemma run_with_verbose_logs_once :
  exists msg,
    log_records (mkWorld ["5"; "4"] [(INFO, "Exiting after 2 results")] INFO ∅ [])
    = log_records world0 ++ [(INFO, msg)].
Proof.
  refine (verbose_run_logs_one_record max_2 five_items 6 world0
            (mkWorld ["5"; "4"] [(INFO, "Exiting after 2 results")] INFO ∅ [])
            (Returned ReachedMax) _ _).
  - simpl. lia.
  - vm_compute. reflexivity.
Defined.

Lemma for_loop_ends_from (args : Namespace) (items : Scraper) (n : nat) :
  forall (k : nat) (w : World),
    items (k + n)%nat = StopIteration \/ (exists e, items (k + n)%nat = Throw e) ->
    exists r, for_loop (S n) args items k w = Some r.
Proof.
  induction n as [|n IH]; intros k w Hend.
  - rewrite Nat.add_0_r in Hend. simpl.
    destruct Hend as [-> | [e ->]]; eexists; reflexivity.
  - cbn [for_loop]. destruct (items k) as [item| |e]; [|eexists; reflexivity..].
    destruct (loop_body args (Z.of_nat k + 1) item w) as [[[|why]|lineno e] w'];
      [|eexists; reflexivity..].
    apply IH. replace (S k + n)%nat with (k + S n)%nat by lia. exact Hend.
Qed.

(** X11. The loop ends whenever the sequence does: when pull [m] ends the
    sequence or raises, the loop has ended after at most [m + 1] pulls,
    whatever the options and the items before. *)
Theorem loop_ends_when_sequence_ends
    (args : Namespace) (items : Scraper) (m : nat) (w : World) :
  items m = StopIteration \/ (exists e, items m = Throw e) ->
  exists r, for_loop (S m) args items O w = Some r.
Proof. intros Hend. apply for_loop_ends_from. exact Hend. Qed.

(** The witness of X11. *)
Lemma five_items_end_the_loop :
  exists r, for_loop 6 since_3 five_items O world0 = Some r.
Proof.
  apply (loop_ends_when_sequence_ends since_3 five_items 5 world0).
  left. reflexivity.
Defined.

(** An item that cannot be printed ends the loop from line 118, after the
    items before it have been printed. *)
Example unprintable_item_ends_the_run :
  for_loop 3 max_2 (Reference.items_of_list [numbered_item 5; unprintable_item]) O world0
  = Some (Raised 118 (mkExc TypeError "__str__ returned non-string (type NoneType)" [] None),
          print "5" world0).
Proof. vm_compute. reflexivity. Qed.

(** ** Further properties of the diagnostics handler *)

(** The loop of lines 22-33 ends in one of two ways. *)
Lemma dump_frames_outcomes (e : Exc) (frames : list FrameRecord) :
  forall written, exists content,
    dump_frames e frames written = (Ok tt, content)
    \/ dump_frames e frames written = (Raise (none_has_no_name e), content).
Proof.
  induction frames as [|fr frames IH]; intros written; simpl.
  - exists written. left. reflexivity.
  - destruct (fr_module fr) as [module_name|].
    + destruct (owned module_name); apply IH.
    + exists written. right. reflexivity.
Qed.

Lemma dump_locals_effect `{Environment} (trace : list FrameRecord) (e : Exc) (w : World) :
  exists r w', dump_locals trace e w = (r, w')
    /\ (r = Ok tt \/ r = Raise (none_has_no_name e))
    /\ stdout w' = stdout w
    /\ constructed w' = constructed w
    /\ (tmp_files w' = tmp_files w
        \/ exists content,
             tmp_files w'
             = <[mkstemp_name "snscrape_locals_" (tmp_files w) := content]> (tmp_files w)).
Proof.
  unfold dump_locals. destruct (3 <=? Z.of_nat (length trace)).
  - destruct (dump_frames_outcomes e (drop 2 trace) "") as [content [-> | ->]].
    + eexists _, _. split; [reflexivity|]. split; [left; reflexivity|].
      unfold logger_fatal. rewrite stdout_logger_log.
      destruct (logger_log_frame CRITICAL
                  ("Local variables logged to "
                   +:+ mkstemp_name "snscrape_locals_" (tmp_files w))
                  (write_file (mkstemp_name "snscrape_locals_" (tmp_files w)) content w))
        as [-> [-> _]].
      split; [reflexivity|]. split; [reflexivity|]. right. exists content. reflexivity.
    + eexists _, _. split; [reflexivity|]. split; [right; reflexivity|].
      split; [reflexivity|]. split; [reflexivity|]. right. exists content. reflexivity.
  - eexists _, _. split; [reflexivity|]. split; [left; reflexivity|].
    split; [reflexivity|]. split; [reflexivity|]. left. reflexivity.
Qed.

(** X12. An [Exception] whose traceback goes below [main], through frames
    whose modules are all known: the file holds the blocks of the frames
    of [snscrape] modules, in the order of the traceback, and nothing of
    the frames of other modules (line 25); it is created, and its name
    logged, also when no frame is kept and it stays empty. *)
Theorem dump_keeps_only_owned_frames `{Environment} {A : Type}
    (lineno : Z) (e : Exc) (w : World) (fr : FrameRecord) (rest : list FrameRecord) :
  is_Exception (exc_class e) = true ->
  exc_tb e = fr :: rest ->
  Forall (fun fr' => is_Some (fr_module fr')) (exc_tb e) ->
  @_dump_locals_on_exception _ A (Raised lineno e, w)
  = (Raise e,
     logger_fatal ("Local variables logged to "
                   +:+ mkstemp_name "snscrape_locals_" (tmp_files w))
       (write_file (mkstemp_name "snscrape_locals_" (tmp_files w))
                   (blocks (List.filter frame_owned (exc_tb e))) w)).
Proof.
  intros Hexc Htb Hknown. unfold _dump_locals_on_exception, dump_locals. rewrite Hexc.
  change (drop 2 (inspect_trace lineno e)) with (exc_tb e).
  change (length (inspect_trace lineno e)) with (S (S (length (exc_tb e)))).
  rewrite (dump_frames_known e _ "" Hknown).
  destruct (3 <=? Z.of_nat (S (S (length (exc_tb e))))) eqn:E; [reflexivity|].
  apply Z.leb_gt in E. rewrite Htb in E. simpl in E. lia.
Qed.

(** The witness of X12: the innermost frame is one of [requests]. *)
Lemma connection_failure_dump_skips_requests :
  @_dump_locals_on_exception sample_env Exit (Raised 111 connection_failed, world0)
  = (Raise connection_failed,
     logger_fatal ("Local variables logged to "
                   +:+ @mkstemp_name sample_env "snscrape_locals_" (tmp_files world0))
       (write_file (@mkstemp_name sample_env "snscrape_locals_" (tmp_files world0))
                   (blocks (List.filter frame_owned (exc_tb connection_failed))) world0)).
Proof.
  apply (@dump_keeps_only_owned_frames sample_env Exit 111 connection_failed world0
           get_items_frame [request_frame; adapter_frame] eq_refl eq_refl).
  repeat constructor; eexists; reflexivity.
Defined.

(** The frames kept in the run of the witness. *)
Example connection_failure_kept_frames :
  List.filter frame_owned (exc_tb connection_failed) = [get_items_frame; request_frame].
Proof. reflexivity. Qed.

(** X13. The [with] statement never swallows an exception: whatever
    leaves its body, the statement ends with an exception too, the same
    one or one that was raised while it was being handled and so has it in
    its [__context__] chain. What is no [Exception] passes as it is, with
    nothing done. The handler prints nothing to stdout, and it removes or
    changes no file of the temporary directory. *)
Theorem with_statement_never_suppresses `{Environment} {A : Type}
    (lineno : Z) (e : Exc) (w : World) :
  exists e' w',
    @_dump_locals_on_exception _ A (Raised lineno e, w) = (Raise e', w')
    /\ (e' = e \/ e ∈ context_chain e')
    /\ (is_Exception (exc_class e) = false -> e' = e /\ w' = w)
    /\ stdout w' = stdout w
    /\ tmp_files w ⊆ tmp_files w'.
Proof.
  unfold _dump_locals_on_exception. destruct (is_Exception (exc_class e)).
  - destruct (dump_locals_effect (inspect_trace lineno e) e w)
      as [r [w' [-> [Hr [Hout [_ Hfiles]]]]]].
    assert (Hsub : tmp_files w ⊆ tmp_files w').
    { destruct Hfiles as [->|[content ->]]; [reflexivity|].
      apply insert_subseteq, mkstemp_fresh. }
    destruct Hr as [-> | ->].
    + exists e, w'. split; [reflexivity|]. split; [left; reflexivity|].
      split; [discriminate|]. split; assumption.
    + exists (none_has_no_name e), w'. split; [reflexivity|].
      split; [right; simpl; constructor|].
      split; [discriminate|]. split; assumption.
  - exists e, w. split; [reflexivity|]. split; [left; reflexivity|].
    split; [intros _; split; reflexivity|]. split; reflexivity.
Qed.

(** ** Further properties of [main] *)

(** X14. A run of [main] that ends adds at most one file to the temporary
    directory, under a name that was free and starts with
    ['snscrape_locals_'], and only when it ends with an exception; no file
    that was there is removed or changed. *)
Theorem main_writes_at_most_one_file `{PyDatetime} `{Environment}
    (fuel : nat) (roots : list Cls) (argv : list string) (w w' : World) (r : Result Exit) :
  main fuel roots argv w = Some (r, w') ->
  tmp_files w' = tmp_files w
  \/ exists e fp_name content,
       r = Raise e
       /\ tmp_files w !! fp_name = None
       /\ startswith fp_name "snscrape_locals_" = true
       /\ tmp_files w' = <[fp_name := content]> (tmp_files w).
Proof.
  unfold main. intros Hmain.
  destruct (parse_args roots argv) as [args|e]; [|injection Hmain as _ <-; left; reflexivity].
  assert (Hsetup : tmp_files (setup_logging (verbosity args) w) = tmp_files w).
  { unfold setup_logging. destruct (0 <? verbosity args); reflexivity. }
  destruct (construct args (setup_logging (verbosity args) w)) as [[scraper|e] w2] eqn:Hc.
  - assert (H2 : tmp_files w2 = tmp_files w).
    { unfold construct in Hc. destruct (cls args); [|discriminate].
      injection Hc as _ <-. exact Hsetup. }
    destruct (for_loop fuel args scraper 0 w2) as [[body w3]|] eqn:Hrun; [|discriminate].
    destruct (for_loop_frame _ _ _ _ _ _ _ Hrun) as [H3 _].
    injection Hmain as Hmain. destruct body as [why|lineno e].
    + injection Hmain as _ <-. left. congruence.
    + unfold _dump_locals_on_exception in Hmain.
      destruct (is_Exception (exc_class e));
        [|injection Hmain as _ <-; left; congruence].
      destruct (dump_locals_effect (inspect_trace lineno e) e w3)
        as [r' [w4 [Hd [_ [_ [_ Hfiles]]]]]].
      rewrite Hd in Hmain.
      assert (Hr : exists e', r = Raise e' /\ w' = w4).
      { destruct r' as [[]|e']; injection Hmain as <- <-; eexists; split; reflexivity. }
      destruct Hr as [e' [-> ->]].
      destruct Hfiles as [Hsame|[content Hnew]]; [left; congruence|].
      right. exists e', (mkstemp_name "snscrape_locals_" (tmp_files w)), content.
      split; [reflexivity|]. split; [apply mkstemp_fresh|]. split; [apply mkstemp_prefix|].
      rewrite Hnew, H3, H2. reflexivity.
  - injection Hmain as _ <-. left.
    unfold construct in Hc. destruct (cls args); injection Hc as _ <-; exact Hsetup.
Qed.

(** The witness of X14: a run that ends without an exception. *)
Lemma run_to_cutoff_writes_no_file :
  tmp_files (mkWorld ["5"; "4"; "3"]
               [(INFO, "Exiting due to reaching older results than 1970-01-01 00:00:03+00:00")]
               INFO ∅ [Class "TwitterUserScraper" (Some "twitter-user") []])
  = tmp_files world0
  \/ exists e fp_name content,
       Ok ReachedOlder = Raise e
       /\ tmp_files world0 !! fp_name = None
       /\ startswith fp_name "snscrape_locals_" = true
       /\ tmp_files (mkWorld ["5"; "4"; "3"]
            [(INFO, "Exiting due to reaching older results than 1970-01-01 00:00:03+00:00")]
            INFO ∅ [Class "TwitterUserScraper" (Some "twitter-user") []])
          = <[fp_name := content]> (tmp_files world0).
Proof.
  apply (@main_writes_at_most_one_file cpython sample_env 10 sample_classes
           ["-v"; "--since"; "3"; "twitter-user"] world0).
  vm_compute. reflexivity.
Defined.

(** X15. Line 107 lies outside the [with] statement: an exception of
    [from_args] leaves [main] as it is, whatever its traceback, with no
    file written, nothing printed and no item pulled. *)
Theorem from_args_failure_is_not_dumped `{PyDatetime} `{Environment}
    (fuel : nat) (roots : list Cls) (argv : list string) (w : World)
    (args : Namespace) (c : Cls) (e : Exc) :
  parse_args roots argv = Ok args ->
  cls args = Some c ->
  from_args c args = Raise e ->
  main fuel roots argv w
  = Some (Raise e, note_constructed c (setup_logging (verbosity args) w)).
Proof.
  intros Hargs Hcls Hfrom. unfold main, construct. rewrite Hargs, Hcls, Hfrom. reflexivity.
Qed.

(** The witness of X15: every [from_args] fails, deep in [snscrape]. *)
Lemma failing_from_args_is_not_dumped :
  @main cpython (reference (fun _ _ => Raise scraping_failed)) 0 sample_classes ["gab"] world0
  = Some (Raise scraping_failed,
          note_constructed (Class "GabScraper" (Some "gab") [])
            (setup_logging
               (verbosity (mkNamespace 0 3 None None None (Some "gab")
                             (Some (Class "GabScraper" (Some "gab") [])) []))
               world0)).
Proof.
  apply (@from_args_failure_is_not_dumped cpython (reference (fun _ _ => Raise scraping_failed))
           0 sample_classes ["gab"] world0
           (mkNamespace 0 3 None None None (Some "gab")
              (Some (Class "GabScraper" (Some "gab") [])) [])
           (Class "GabScraper" (Some "gab") []) scraping_failed);
    vm_compute; reflexivity.
Defined.

(** ** Further properties of the registry and of [parse_args] *)

Lemma walk_app (a : list Cls) :
  forall b, walk (a ++ b) = a ++ walk (b ++ flat_map cls_subclasses a).
Proof.
  induction a as [|c a IH]; intros b; simpl.
  - rewrite app_nil_r. reflexivity.
  - simp walk. rewrite <- app_assoc, IH, <- app_assoc. reflexivity.
Qed.

Lemma visited_walk (roots : list Cls) : visited roots = walk roots.
Proof. unfold visited. rewrite registry_walk. reflexivity. Qed.

(** X16. The loop of lines 69-74 walks the hierarchy level by level: first
    the direct subclasses of the base class in their order, then what the
    same walk makes of their subclasses, taken together in that order. *)
Theorem visited_breadth_first (roots : list Cls) :
  visited roots = roots ++ visited (flat_map cls_subclasses roots).
Proof.
  rewrite !visited_walk.
  rewrite <- (app_nil_r roots) at 1. rewrite walk_app. reflexivity.
Qed.

Lemma cls_flatten_unfold (c : Cls) :
  cls_flatten c = c :: forest_flatten (cls_subclasses c).
Proof.
  destruct c as [q n subs]. reflexivity.
Qed.

Lemma forest_flatten_app (a b : list Cls) :
  forest_flatten (a ++ b) = forest_flatten a ++ forest_flatten b.
Proof. unfold forest_flatten. apply flat_map_app. Qed.

Lemma walk_flatten (pending : list Cls) : walk pending ≡ₚ forest_flatten pending.
Proof.
  funelim (walk pending); [reflexivity|].
  rewrite H, forest_flatten_app.
  change (forest_flatten (c :: rest)) with (cls_flatten c ++ forest_flatten rest).
  rewrite cls_flatten_unfold. simpl. constructor.
  apply Permutation_app_comm.
Qed.

(** X17. The loop walks each class of the hierarchy once for each path
    that leads to it from the base class, no more and no less: the classes
    walked are, up to their order, those of the hierarchy listed depth
    first. *)
Theorem visited_each_once (roots : list Cls) :
  visited roots ≡ₚ forest_flatten roots.
Proof. rewrite visited_walk. apply walk_flatten. Qed.

(** X18. The arguments [parse_args] returns are those argparse returned at
    line 76, on the parser the loop built without an exception, and they
    name a scraper: [args.scraper] is a string that is not empty. The test
    of line 79 refuses the empty string as it refuses [None]. *)
Theorem parsed_namespace_names_a_scraper `{PyDatetime} `{Environment}
    (roots : list Cls) (argv : list string) (args : Namespace) :
  parse_args roots argv = Ok args ->
  build_parser roots = Ok (mkParser parse_datetime_arg (subcommands roots))
  /\ parser_parse_args (mkParser parse_datetime_arg (subcommands roots)) argv = Ok args
  /\ exists first_char more, scraper args = Some (String first_char more).
Proof.
  unfold parse_args. intros Hargs.
  destruct (build_parser roots) as [parser|e] eqn:Hparser; [|discriminate].
  apply build_parser_registry in Hparser as ->. split; [reflexivity|].
  simpl in Hargs.
  destruct (parser_parse_args (mkParser parse_datetime_arg (subcommands roots)) argv)
    as [args'|e]; [|discriminate].
  simpl in Hargs. destruct (scraper args') as [[|first_char more]|] eqn:Hs; try discriminate.
  simpl in Hargs. injection Hargs as <-. split; [reflexivity|].
  exists first_char, more. exact Hs.
Qed.

(** The witness of X18. *)
Lemma gab_is_named :
  @build_parser cpython sample_env sample_classes
  = Ok (mkParser (@parse_datetime_arg cpython) (subcommands sample_classes))
  /\ @parser_parse_args sample_env
       (mkParser (@parse_datetime_arg cpython) (subcommands sample_classes)) ["gab"]
     = Ok (mkNamespace 0 3 None None None (Some "gab")
             (Some (Class "GabScraper" (Some "gab") [])) [])
  /\ exists first_char more,
       scraper (mkNamespace 0 3 None None None (Some "gab")
                  (Some (Class "GabScraper" (Some "gab") [])) [])
       = Some (String first_char more).
Proof.
  apply (@parsed_namespace_names_a_scraper cpython sample_env sample_classes ["gab"]).
  vm_compute. reflexivity.
Defined.

(** What ends the registration with an exception: [add_parser], for the
    name of a class of the list and with an argparse that rejects, or the
    [setup_parser] of a class of the list that has a name. *)
Lemma register_all_raises (repeated : RepeatedName) (setup : Cls -> Result unit)
    (l : list Cls) (e : Exc) :
  forall (m : gmap string Cls),
    register_all repeated setup l m = Raise e ->
    exists c n, c ∈ l /\ cls_name c = Some n
      /\ ((repeated = Rejects /\ e = conflicting_subparser n) \/ setup c = Raise e).
Proof.
  induction l as [|c l IH]; intros m; cbn [register_all]; [discriminate|].
  destruct (register_class repeated setup c m) as [m'|e'] eqn:E.
  - intros Hrest. destruct (IH m' Hrest) as [c' [n [Hc' Hn]]].
    exists c', n. split; [constructor; exact Hc'|exact Hn].
  - intros [= ->]. unfold register_class, add_parser in E.
    destruct (cls_name c) as [n|] eqn:Hc; [|discriminate].
    exists c, n. split; [constructor|]. split; [exact Hc|].
    destruct repeated.
    + cbn [bind] in E. destruct (setup c) as [[]|e']; [discriminate|].
      right. injection E as ->. reflexivity.
    + destruct (m !! n) as [c0|].
      * injection E as <-. left. split; reflexivity.
      * cbn [bind] in E. destruct (setup c) as [[]|e']; [discriminate|].
        right. injection E as ->. reflexivity.
Qed.

(** X19. What [parse_args] raises is what ended the loop of lines 68-74
    (the [ArgumentError] of [add_parser] for the name of a walked class,
    with an argparse that rejects a repeated name, or what the
    [setup_parser] of a walked class with a name raised), or what
    [parser.parse_args()] raised at line 76, or the [RuntimeError] of line
    80, raised when argparse returned arguments whose [scraper] is [None]
    or empty. *)
Theorem parse_args_raises_only `{PyDatetime} `{Environment}
    (roots : list Cls) (argv : list string) (e : Exc) :
  parse_args roots argv = Raise e ->
  (build_parser roots = Raise e
   /\ exists c n, c ∈ visited roots /\ cls_name c = Some n
        /\ ((repeated_name = Rejects /\ e = conflicting_subparser n)
            \/ setup_parser c = Raise e))
  \/ (build_parser roots = Ok (mkParser parse_datetime_arg (subcommands roots))
      /\ ((e = no_scraper
           /\ exists args,
                parser_parse_args (mkParser parse_datetime_arg (subcommands roots)) argv
                = Ok args
                /\ (scraper args = None \/ scraper args = Some EmptyString))
          \/ parser_parse_args (mkParser parse_datetime_arg (subcommands roots)) argv
             = Raise e)).
Proof.
  unfold parse_args. intros Hargs.
  destruct (build_parser roots) as [parser|e0] eqn:Hparser.
  - right. apply build_parser_registry in Hparser as ->. split; [reflexivity|].
    cbn [bind] in Hargs.
    destruct (parser_parse_args (mkParser parse_datetime_arg (subcommands roots)) argv)
      as [args|e'] eqn:Hp.
    + cbn [bind] in Hargs. left.
      destruct (scraper args) as [[|first_char more]|] eqn:Hs; simpl in Hargs;
        try discriminate; injection Hargs as <-.
      * split; [reflexivity|]. exists args. split; [reflexivity|]. right. exact Hs.
      * split; [reflexivity|]. exists args. split; [reflexivity|]. left. exact Hs.
    + right. exact Hargs.
  - left. injection Hargs as ->. split; [reflexivity|].
    unfold build_parser in Hparser. rewrite register_loop_all in Hparser.
    destruct (register_all repeated_name setup_parser (walk roots) ∅) as [m|e0] eqn:E;
      [discriminate|].
    injection Hparser as ->. rewrite visited_walk.
    apply (register_all_raises _ _ _ _ _ E).
Qed.

(** The witness of X19: a subclass that inherits the [name] of its base,
    with the argparse of Python 3.11. *)
Lemma inherited_name_is_argparse_s_error :
  (@build_parser cpython sample_env shadowing_classes
   = Raise (conflicting_subparser "twitter-search")
   /\ exists c n, c ∈ visited shadowing_classes /\ cls_name c = Some n
        /\ ((@repeated_name sample_env = Rejects
             /\ conflicting_subparser "twitter-search" = conflicting_subparser n)
            \/ @setup_parser sample_env c = Raise (conflicting_subparser "twitter-search")))
  \/ (@build_parser cpython sample_env shadowing_classes
      = Ok (mkParser (@parse_datetime_arg cpython) (subcommands shadowing_classes))
      /\ ((conflicting_subparser "twitter-search" = no_scraper
           /\ exists args,
                @parser_parse_args sample_env
                  (mkParser (@parse_datetime_arg cpython) (subcommands shadowing_classes))
                  ["twitter-search"]
                = Ok args
                /\ (scraper args = None \/ scraper args = Some EmptyString))
          \/ @parser_parse_args sample_env
               (mkParser (@parse_datetime_arg cpython) (subcommands shadowing_classes))
               ["twitter-search"]
             = Raise (conflicting_subparser "twitter-search"))).
Proof.
  apply (@parse_args_raises_only cpython sample_env shadowing_classes ["twitter-search"]).
  vm_compute. reflexivity.
Defined.
